(** * IoT home automation with gas detection: the control core, verified

    A shallow embedding of the MicroPython sources

      - [config.py]
      - [sensors/gas_sensor.py], [sensors/ldr_sensor.py], [sensors/water_level.py]
      - [controllers/relay_controller.py], [controllers/buzzer_controller.py]
      - [main.py]

    Every class becomes a module holding a record for the instance
    attributes and one definition per method, written in a small monad
    that threads the instance, the outside world (pins, ADC, network) and
    the console/network output the method produces, and that can raise
    Python exceptions. *)

From Stdlib Require Import ZArith List Bool String DecimalString Lia QArith.
Import ListNotations.
Open Scope string_scope.
Open Scope list_scope.
Open Scope Z_scope.

(* ================================================================= *)
(** * The outside world *)

(** Input lines of the board.  On MicroPython these are [ADC.read()] and
    [Pin.value()] of input pins; in simulation the modules draw
    pseudo-random numbers instead ([random.randint], [random.choice]),
    and the same channel supplies the successive draws. *)
Inductive Channel : Type :=
| MQ2_ANALOG      (* adc.read()  /  random.randint(200, 600)            *)
| MQ2_DIGITAL     (* digital_pin.value() of the gas sensor              *)
| LDR             (* digital_pin.value() / random.choice([0, 1])        *)
| FLOAT_OVERHEAD  (* overhead.value()    / random.choice([0, 1])        *)
| FLOAT_UNDERGROUND.

Definition Channel_eqb (a b : Channel) : bool :=
  match a, b with
  | MQ2_ANALOG, MQ2_ANALOG | MQ2_DIGITAL, MQ2_DIGITAL | LDR, LDR
  | FLOAT_OVERHEAD, FLOAT_OVERHEAD | FLOAT_UNDERGROUND, FLOAT_UNDERGROUND => true
  | _, _ => false
  end.

(** Errors of class [Exception] (the ones [except Exception] catches). *)
Record Exception : Type := { message : string }.

(** What one [requests.get(url)] followed by [response.close()] does. *)
Inductive HttpOutcome : Type :=
| Completed
| GetRaises (e : Exception)
| CloseRaises (e : Exception).

(** The part of the world the program does not control: which platform
    it runs on, what each input line shows at its k-th reading, how the
    k-th HTTP request ends, and what the k-th [wlan.isconnected()]
    answers.  Every module sets its own [MICROPYTHON] by trying to
    import the MicroPython modules; on one platform they all succeed or
    all fail, so the flag is one. *)
Record Env : Type := {
  MICROPYTHON : bool;
  samples : Channel -> nat -> Z;
  http : nat -> HttpOutcome;
  wlan_isconnected : nat -> bool
}.

(** The world as the program advances through it: how many readings it
    has taken from each line, how many requests it has made. *)
Record World : Type := {
  env : Env;
  reads : Channel -> nat;
  requests : nat;
  wlan_polls : nat
}.

Definition next_sample (c : Channel) (w : World) : Z :=
  samples (env w) c (reads w c).

Definition consume (c : Channel) (w : World) : World :=
  {| env := env w;
     reads := fun c' => if Channel_eqb c' c then S (reads w c') else reads w c';
     requests := requests w;
     wlan_polls := wlan_polls w |}.

Definition next_request (w : World) : World :=
  {| env := env w; reads := reads w;
     requests := S (requests w); wlan_polls := wlan_polls w |}.

Definition next_poll (w : World) : World :=
  {| env := env w; reads := reads w;
     requests := requests w; wlan_polls := S (wlan_polls w) |}.

(* ================================================================= *)
(** * Output *)

(** Console lines.  One constructor per [print] call (a banner of
    several decorated lines counts as one); decorations are dropped. *)
Inductive Line : Type :=
| RelaysOffLine                        (* "All relays turned OFF"        *)
| LightLine (on : bool)                (* "Light: ON|OFF"                *)
| FanLine (on : bool)
| MotorLine (on : bool)
| GardenLine (on : bool)
| AlarmOnLine                          (* "ALARM ON!"                    *)
| AlarmOffLine                         (* "Alarm OFF"                    *)
| BeepingLine (count : Z)              (* "Beeping {count} times..."     *)
| WarmupLine (duration : Z)
| WarmupProgressLine (i duration : Z)
| WarmupReadyLine (baseline : Z)
| GasLeakBanner (level threshold : Z)  (* "GAS LEAKAGE DETECTED" banner  *)
| GasNormalLine                        (* "Gas levels returned to normal"*)
| BlynkUpdateErrorLine (e : Exception)
| BlynkEventErrorLine (e : Exception)
| StatusPanel (reading threshold : Z)
              (gas_text light_text overhead_text underground_text motor_text : string)
              (light fan motor garden connected : bool)
| Text (s : string).

Inductive Output : Type :=
| Print (l : Line)
| Sleep (seconds : Q)
| HttpGet (url : string)
| WlanActive (on : bool)
| WlanConnect (ssid password : string).

(* ================================================================= *)
(** * The monad of methods *)

Inductive Result (A : Type) : Type :=
| Ok (a : A)
| Raise (e : Exception).
Arguments Ok {A} a.
Arguments Raise {A} e.

Record Outcome (S A : Type) : Type := mkOutcome {
  result : Result A;
  state : S;
  world : World;
  output : list Output
}.
Arguments mkOutcome {S A}.
Arguments result {S A}.
Arguments state {S A}.
Arguments world {S A}.
Arguments output {S A}.

(** A method of an object of type [S] returning an [A]. *)
Definition M (S A : Type) : Type := S -> World -> Outcome S A.

Definition ret {S A} (a : A) : M S A :=
  fun s w => mkOutcome (Ok a) s w [].

Definition bind {S A B} (m : M S A) (k : A -> M S B) : M S B :=
  fun s w =>
    match m s w with
    | mkOutcome (Ok a) s1 w1 o1 =>
        match k a s1 w1 with
        | mkOutcome r s2 w2 o2 => mkOutcome r s2 w2 (o1 ++ o2)
        end
    | mkOutcome (Raise e) s1 w1 o1 => mkOutcome (Raise e) s1 w1 o1
    end.

Notation "x <- m ;; k" := (bind m (fun x => k))
  (at level 61, m at next level, right associativity).
Notation "m ;; k" := (bind m (fun _ => k))
  (at level 61, right associativity).

Definition raise {S A} (e : Exception) : M S A :=
  fun s w => mkOutcome (Raise e) s w [].

(** [try: body  except Exception as e: handler e]. *)
Definition try_except {S A} (body : M S A) (handler : Exception -> M S A) : M S A :=
  fun s w =>
    match body s w with
    | mkOutcome (Ok a) s1 w1 o1 => mkOutcome (Ok a) s1 w1 o1
    | mkOutcome (Raise e) s1 w1 o1 =>
        match handler e s1 w1 with
        | mkOutcome r s2 w2 o2 => mkOutcome r s2 w2 (o1 ++ o2)
        end
    end.

Definition get {S} : M S S := fun s w => mkOutcome (Ok s) s w [].
Definition gets {S A} (f : S -> A) : M S A := fun s w => mkOutcome (Ok (f s)) s w [].
Definition modify {S} (f : S -> S) : M S unit := fun s w => mkOutcome (Ok tt) (f s) w [].
Definition emit {S} (o : Output) : M S unit := fun s w => mkOutcome (Ok tt) s w [o].
Definition print {S} (l : Line) : M S unit := emit (Print l).
Definition sleep {S} (seconds : Q) : M S unit := emit (Sleep seconds).

(** The module-level flag set by probing for the MicroPython modules. *)
Definition micropython {S} : M S bool :=
  fun s w => mkOutcome (Ok (MICROPYTHON (env w))) s w [].

(** Take the next reading of an input line. *)
Definition sample {S} (c : Channel) : M S Z :=
  fun s w => mkOutcome (Ok (next_sample c w)) s (consume c w) [].

(** [wlan.isconnected()]. *)
Definition wlan_poll {S} : M S bool :=
  fun s w => mkOutcome (Ok (wlan_isconnected (env w) (wlan_polls w))) s (next_poll w) [].

(** [requests.get(url)]: the request goes out; it either raises or
    hands back a response whose [close()] may still raise. *)
Record Response : Type := { close_error : option Exception }.

Definition requests_get {S} (url : string) : M S Response :=
  fun s w =>
    match http (env w) (requests w) with
    | Completed =>
        mkOutcome (Ok {| close_error := None |}) s (next_request w) [HttpGet url]
    | CloseRaises e =>
        mkOutcome (Ok {| close_error := Some e |}) s (next_request w) [HttpGet url]
    | GetRaises e =>
        mkOutcome (Raise e) s (next_request w) [HttpGet url]
    end.

Definition response_close {S} (r : Response) : M S unit :=
  match close_error r with
  | None => ret tt
  | Some e => raise e
  end.

(** Python's [str] on an integer, as an f-string formats it. *)
Definition str (z : Z) : string := NilZero.string_of_int (Z.to_int z).

(** Run a method of an attribute object inside its owner. *)
Definition zoom {S T A} (proj : S -> T) (upd : T -> S -> S) (m : M T A) : M S A :=
  fun s w =>
    match m (proj s) w with
    | mkOutcome r t w' o => mkOutcome r (upd t s) w' o
    end.

(** [for i in range(n): body i], the index counted from [i]. *)
Fixpoint for_range {S} (n : nat) (i : Z) (body : Z -> M S unit) : M S unit :=
  match n with
  | O => ret tt
  | S n' => body i ;; for_range n' (i + 1) body
  end.

Definition range {S} (count : Z) (body : Z -> M S unit) : M S unit :=
  for_range (Z.to_nat count) 0 body.

Definition when {S} (b : bool) (m : M S unit) : M S unit :=
  if b then m else ret tt.

(* ================================================================= *)
(** * config.py *)

Module config.
Definition WIFI_SSID : string := "vivo V23 5G".
Definition WIFI_PASSWORD : string := "ade ra password".
Definition BLYNK_AUTH_TOKEN : string := "YOUR_BLYNK_AUTH_TOKEN".
Definition PIN_MQ2_ANALOG : Z := 0.
Definition PIN_MQ2_DIGITAL : Z := 16.
Definition PIN_LDR : Z := 14.
Definition PIN_FLOAT_OVERHEAD : Z := 12.
Definition PIN_FLOAT_UNDERGROUND : Z := 13.
Definition PIN_RELAY_LIGHT : Z := 5.
Definition PIN_RELAY_FAN : Z := 4.
Definition PIN_RELAY_MOTOR : Z := 0.
Definition PIN_RELAY_GARDEN : Z := 2.
Definition PIN_BUZZER : Z := 15.
Definition GAS_THRESHOLD : Z := 400.
Definition V_PIN_GAS_LEVEL : Z := 10.
Definition V_PIN_TANK_STATUS : Z := 11.
Definition V_PIN_LDR_STATUS : Z := 12.
End config.

(* ================================================================= *)
(** * machine.Pin, as an output *)

Module Pin.
(** An output pin keeps the level last written to it: [value(x)] drives
    it by the truth value of [x], and [value()] reads the driven level
    back (as the ESP8266 port does for a pin in [Pin.OUT] mode). *)
Record t : Type := { id : Z; level : Z }.
Definition OUT (pin : Z) : t := {| id := pin; level := 0 |}.
Definition value (p : t) : Z := level p.
Definition set_value (x : Z) (p : t) : t :=
  {| id := id p; level := if x =? 0 then 0 else 1 |}.
End Pin.

(** Python's [not x] on an integer. *)
Definition py_not (x : Z) : bool := x =? 0.

(* ================================================================= *)
(** * controllers/relay_controller.py *)

Module RelayController.

(** The relays are active low (0 = on, 1 = off).  On MicroPython the
    object holds four output pins, in simulation four integers
    [*_state]; the record carries both sets, and every method touches
    only the set of the platform it runs on. *)
Record t : Type := {
  light : Pin.t;
  fan : Pin.t;
  motor : Pin.t;
  garden : Pin.t;
  light_state : Z;
  fan_state : Z;
  motor_state : Z;
  garden_state : Z
}.

Definition set_light (f : Pin.t -> Pin.t) (r : t) : t :=
  {| light := f (light r); fan := fan r; motor := motor r; garden := garden r;
     light_state := light_state r; fan_state := fan_state r;
     motor_state := motor_state r; garden_state := garden_state r |}.
Definition set_fan (f : Pin.t -> Pin.t) (r : t) : t :=
  {| light := light r; fan := f (fan r); motor := motor r; garden := garden r;
     light_state := light_state r; fan_state := fan_state r;
     motor_state := motor_state r; garden_state := garden_state r |}.
Definition set_motor (f : Pin.t -> Pin.t) (r : t) : t :=
  {| light := light r; fan := fan r; motor := f (motor r); garden := garden r;
     light_state := light_state r; fan_state := fan_state r;
     motor_state := motor_state r; garden_state := garden_state r |}.
Definition set_garden (f : Pin.t -> Pin.t) (r : t) : t :=
  {| light := light r; fan := fan r; motor := motor r; garden := f (garden r);
     light_state := light_state r; fan_state := fan_state r;
     motor_state := motor_state r; garden_state := garden_state r |}.
Definition set_light_state (v : Z) (r : t) : t :=
  {| light := light r; fan := fan r; motor := motor r; garden := garden r;
     light_state := v; fan_state := fan_state r;
     motor_state := motor_state r; garden_state := garden_state r |}.
Definition set_fan_state (v : Z) (r : t) : t :=
  {| light := light r; fan := fan r; motor := motor r; garden := garden r;
     light_state := light_state r; fan_state := v;
     motor_state := motor_state r; garden_state := garden_state r |}.
Definition set_motor_state (v : Z) (r : t) : t :=
  {| light := light r; fan := fan r; motor := motor r; garden := garden r;
     light_state := light_state r; fan_state := fan_state r;
     motor_state := v; garden_state := garden_state r |}.
Definition set_garden_state (v : Z) (r : t) : t :=
  {| light := light r; fan := fan r; motor := motor r; garden := garden r;
     light_state := light_state r; fan_state := fan_state r;
     motor_state := motor_state r; garden_state := v |}.

(** [turn_off_all]: every relay to 1 (off, active low). *)
Definition turn_off_all : M t unit :=
  mp <- micropython ;;
  (if mp then
     modify (set_light (Pin.set_value 1)) ;;
     modify (set_fan (Pin.set_value 1)) ;;
     modify (set_motor (Pin.set_value 1)) ;;
     modify (set_garden (Pin.set_value 1))
   else
     modify (set_light_state 1) ;;
     modify (set_fan_state 1) ;;
     modify (set_motor_state 1) ;;
     modify (set_garden_state 1)) ;;
  print RelaysOffLine.

(** The object before [__init__] has run. *)
Definition blank : t :=
  {| light := Pin.OUT 0; fan := Pin.OUT 0; motor := Pin.OUT 0; garden := Pin.OUT 0;
     light_state := 0; fan_state := 0; motor_state := 0; garden_state := 0 |}.

Definition __init__ (light_pin fan_pin motor_pin garden_pin : Z) : M t unit :=
  mp <- micropython ;;
  (if mp then
     modify (set_light (fun _ => Pin.OUT light_pin)) ;;
     modify (set_fan (fun _ => Pin.OUT fan_pin)) ;;
     modify (set_motor (fun _ => Pin.OUT motor_pin)) ;;
     modify (set_garden (fun _ => Pin.OUT garden_pin))
   else
     modify (set_light_state 1) ;;
     modify (set_fan_state 1) ;;
     modify (set_motor_state 1) ;;
     modify (set_garden_state 1)) ;;
  turn_off_all.

Definition control_light (state : bool) : M t unit :=
  let value := if state then 0 else 1 in
  mp <- micropython ;;
  (if mp then modify (set_light (Pin.set_value value))
   else modify (set_light_state value)) ;;
  print (LightLine state).

Definition control_fan (state : bool) : M t unit :=
  let value := if state then 0 else 1 in
  mp <- micropython ;;
  (if mp then modify (set_fan (Pin.set_value value))
   else modify (set_fan_state value)) ;;
  print (FanLine state).

Definition control_motor (state : bool) : M t unit :=
  let value := if state then 0 else 1 in
  mp <- micropython ;;
  (if mp then modify (set_motor (Pin.set_value value))
   else modify (set_motor_state value)) ;;
  print (MotorLine state).

Definition control_garden_light (state : bool) : M t unit :=
  let value := if state then 0 else 1 in
  mp <- micropython ;;
  (if mp then modify (set_garden (Pin.set_value value))
   else modify (set_garden_state value)) ;;
  print (GardenLine state).

(** The dictionary [get_status] returns. *)
Record Status : Type := {
  st_light : bool;
  st_fan : bool;
  st_motor : bool;
  st_garden : bool
}.

(** [get_status]: the levels read back, inverted to true-is-on. *)
Definition get_status : M t Status :=
  mp <- micropython ;;
  r <- get ;;
  if mp then
    ret {| st_light := py_not (Pin.value (light r));
           st_fan := py_not (Pin.value (fan r));
           st_motor := py_not (Pin.value (motor r));
           st_garden := py_not (Pin.value (garden r)) |}
  else
    ret {| st_light := py_not (light_state r);
           st_fan := py_not (fan_state r);
           st_motor := py_not (motor_state r);
           st_garden := py_not (garden_state r) |}.

End RelayController.

(* ================================================================= *)
(** * controllers/buzzer_controller.py *)

Module BuzzerController.

Record t : Type := {
  buzzer : Pin.t;          (* MicroPython: the output pin            *)
  buzzer_state : Z;        (* simulation: the level it would drive    *)
  is_alarming : bool
}.

Definition set_buzzer (f : Pin.t -> Pin.t) (b : t) : t :=
  {| buzzer := f (buzzer b); buzzer_state := buzzer_state b;
     is_alarming := is_alarming b |}.
Definition set_buzzer_state (v : Z) (b : t) : t :=
  {| buzzer := buzzer b; buzzer_state := v; is_alarming := is_alarming b |}.
Definition set_is_alarming (a : bool) (b : t) : t :=
  {| buzzer := buzzer b; buzzer_state := buzzer_state b; is_alarming := a |}.

(** The object before [__init__] has run. *)
Definition blank : t :=
  {| buzzer := Pin.OUT 0; buzzer_state := 0; is_alarming := false |}.

Definition __init__ (buzzer_pin : Z) : M t unit :=
  mp <- micropython ;;
  (if mp then
     modify (set_buzzer (fun _ => Pin.OUT buzzer_pin)) ;;
     modify (set_buzzer (Pin.set_value 0))
   else
     modify (set_buzzer_state 0)) ;;
  modify (set_is_alarming false).

Definition alarm_on : M t unit :=
  mp <- micropython ;;
  (if mp then modify (set_buzzer (Pin.set_value 1))
   else modify (set_buzzer_state 1)) ;;
  modify (set_is_alarming true) ;;
  print AlarmOnLine.

Definition alarm_off : M t unit :=
  mp <- micropython ;;
  (if mp then modify (set_buzzer (Pin.set_value 0))
   else modify (set_buzzer_state 0)) ;;
  modify (set_is_alarming false) ;;
  print AlarmOffLine.

(** [beep(duration=0.5)]. *)
Definition beep (duration : Q) : M t unit :=
  alarm_on ;;
  sleep duration ;;
  alarm_off.

(** [beep_pattern(count=3, beep_time=0.2, pause_time=0.2)]. *)
Definition beep_pattern (count : Z) (beep_time pause_time : Q) : M t unit :=
  print (BeepingLine count) ;;
  range count (fun i =>
    alarm_on ;;
    sleep beep_time ;;
    alarm_off ;;
    when (i <? count - 1) (sleep pause_time)).

End BuzzerController.

(* ================================================================= *)
(** * sensors/gas_sensor.py *)

Module GasSensor.

Record t : Type := {
  threshold : Z;
  calibration_value : Z;
  warmup_complete : bool;
  simulated_value : Z      (* simulation only *)
}.

Definition set_calibration_value (v : Z) (g : t) : t :=
  {| threshold := threshold g; calibration_value := v;
     warmup_complete := warmup_complete g; simulated_value := simulated_value g |}.
Definition set_warmup_complete (b : bool) (g : t) : t :=
  {| threshold := threshold g; calibration_value := calibration_value g;
     warmup_complete := b; simulated_value := simulated_value g |}.
Definition set_simulated_value (v : Z) (g : t) : t :=
  {| threshold := threshold g; calibration_value := calibration_value g;
     warmup_complete := warmup_complete g; simulated_value := v |}.

Definition blank : t :=
  {| threshold := 0; calibration_value := 0;
     warmup_complete := false; simulated_value := 0 |}.

(** [__init__(analog_pin, digital_pin, threshold=400)]. *)
Definition __init__ (analog_pin digital_pin threshold : Z) : M t unit :=
  modify (fun g => {| threshold := threshold; calibration_value := 0;
                      warmup_complete := false;
                      simulated_value := simulated_value g |}) ;;
  mp <- micropython ;;
  if mp then ret tt else modify (set_simulated_value 250).

Definition read_analog : M t Z :=
  mp <- micropython ;;
  if mp then
    sample MQ2_ANALOG
  else
    v <- sample MQ2_ANALOG ;;
    modify (set_simulated_value v) ;;
    gets simulated_value.

Definition read_digital : M t Z :=
  mp <- micropython ;;
  if mp then
    sample MQ2_DIGITAL
  else
    g <- get ;;
    ret (if simulated_value g >? threshold g then 1 else 0).

Definition is_gas_detected : M t bool :=
  analog_value <- read_analog ;;
  g <- get ;;
  ret (analog_value >? threshold g).

Definition get_gas_level : M t Z := read_analog.

(** [warmup(duration=10)]. *)
Definition warmup (duration : Z) : M t unit :=
  print (WarmupLine duration) ;;
  range duration (fun i =>
    print (WarmupProgressLine (i + 1) duration) ;;
    sleep (1 # 1)) ;;
  v <- read_analog ;;
  modify (set_calibration_value v) ;;
  modify (set_warmup_complete true) ;;
  g <- get ;;
  print (WarmupReadyLine (calibration_value g)).

(** The dictionary [get_status] returns. *)
Record Status : Type := {
  analog : Z;
  digital : Z;
  detected : bool;
  st_warmup_complete : bool;
  status_text : string
}.

Definition get_status : M t Status :=
  analog <- read_analog ;;
  digital <- read_digital ;;
  detected <- is_gas_detected ;;
  g <- get ;;
  ret {| analog := analog;
         digital := digital;
         detected := detected;
         st_warmup_complete := warmup_complete g;
         status_text := if detected then "GAS DETECTED" else "Normal" |}.

End GasSensor.

(* ================================================================= *)
(** * sensors/ldr_sensor.py *)

Module LDRSensor.

Record t : Type := {
  simulated_value : Z      (* simulation only *)
}.

Definition blank : t := {| simulated_value := 0 |}.

Definition __init__ (digital_pin : Z) : M t unit :=
  mp <- micropython ;;
  if mp then ret tt else modify (fun _ => {| simulated_value := 1 |}).

(** The module outputs LOW (0) when dark, HIGH (1) when light. *)
Definition is_dark : M t bool :=
  mp <- micropython ;;
  if mp then
    v <- sample LDR ;;
    ret (v =? 0)
  else
    v <- sample LDR ;;
    modify (fun _ => {| simulated_value := v |}) ;;
    l <- get ;;
    ret (simulated_value l =? 0).

Definition read : M t Z :=
  mp <- micropython ;;
  if mp then sample LDR else gets simulated_value.

Record Status : Type := {
  digital : Z;
  st_is_dark : bool;
  light_status : string;
  action : string
}.

Definition get_status : M t Status :=
  is_dark <- is_dark ;;
  digital_val <- read ;;
  ret {| digital := digital_val;
         st_is_dark := is_dark;
         light_status := if is_dark then "Dark" else "Light";
         action := if is_dark then "Garden light ON" else "Garden light OFF" |}.

End LDRSensor.

(* ================================================================= *)
(** * sensors/water_level.py *)

Module WaterLevelSensor.

Record t : Type := {
  overhead_state : Z;      (* simulation only *)
  underground_state : Z    (* simulation only *)
}.

Definition set_overhead_state (v : Z) (s : t) : t :=
  {| overhead_state := v; underground_state := underground_state s |}.
Definition set_underground_state (v : Z) (s : t) : t :=
  {| overhead_state := overhead_state s; underground_state := v |}.

Definition blank : t := {| overhead_state := 0; underground_state := 0 |}.

Definition __init__ (overhead_pin underground_pin : Z) : M t unit :=
  mp <- micropython ;;
  if mp then ret tt
  else modify (set_overhead_state 0) ;; modify (set_underground_state 1).

(** The float switch reads HIGH (1) when the overhead tank is full. *)
Definition is_overhead_full : M t bool :=
  mp <- micropython ;;
  if mp then
    v <- sample FLOAT_OVERHEAD ;;
    ret (v =? 1)
  else
    v <- sample FLOAT_OVERHEAD ;;
    modify (set_overhead_state v) ;;
    s <- get ;;
    ret (overhead_state s =? 1).

(** The float switch reads LOW (0) when the underground tank is empty. *)
Definition is_underground_empty : M t bool :=
  mp <- micropython ;;
  if mp then
    v <- sample FLOAT_UNDERGROUND ;;
    ret (v =? 0)
  else
    v <- sample FLOAT_UNDERGROUND ;;
    modify (set_underground_state v) ;;
    s <- get ;;
    ret (underground_state s =? 0).

Definition can_run_motor : M t bool :=
  overhead_full <- is_overhead_full ;;
  underground_empty <- is_underground_empty ;;
  ret (negb overhead_full && negb underground_empty).

Record Status : Type := {
  overhead_full : bool;
  underground_empty : bool;
  st_can_run_motor : bool;
  overhead_status : string;
  underground_status : string;
  motor_status : string
}.

Definition get_tank_status : M t Status :=
  overhead_full <- is_overhead_full ;;
  underground_empty <- is_underground_empty ;;
  motor_allowed <- can_run_motor ;;
  let overhead_msg := if overhead_full then "Full" else "Not Full" in
  let underground_msg := if underground_empty then "Empty" else "Has Water" in
  let motor_msg := if motor_allowed then "Can Run" else "Cannot Run" in
  ret {| overhead_full := overhead_full;
         underground_empty := underground_empty;
         st_can_run_motor := motor_allowed;
         overhead_status := overhead_msg;
         underground_status := underground_msg;
         motor_status := motor_msg |}.

End WaterLevelSensor.

(* ================================================================= *)
(** * main.py *)

Module HomeAutomationSystem.
Import config.

(** [self.manual_override], a dictionary with four fixed keys. *)
Record Override : Type := {
  ov_light : bool;
  ov_fan : bool;
  ov_motor : bool;
  ov_garden : bool
}.

Record t : Type := {
  connected : bool;
  gas_sensor : GasSensor.t;
  ldr_sensor : LDRSensor.t;
  water_sensor : WaterLevelSensor.t;
  relay : RelayController.t;
  buzzer : BuzzerController.t;
  manual_override : Override
}.

Definition set_connected (c : bool) (s : t) : t :=
  {| connected := c; gas_sensor := gas_sensor s; ldr_sensor := ldr_sensor s;
     water_sensor := water_sensor s; relay := relay s; buzzer := buzzer s;
     manual_override := manual_override s |}.
Definition set_gas_sensor (g : GasSensor.t) (s : t) : t :=
  {| connected := connected s; gas_sensor := g; ldr_sensor := ldr_sensor s;
     water_sensor := water_sensor s; relay := relay s; buzzer := buzzer s;
     manual_override := manual_override s |}.
Definition set_ldr_sensor (l : LDRSensor.t) (s : t) : t :=
  {| connected := connected s; gas_sensor := gas_sensor s; ldr_sensor := l;
     water_sensor := water_sensor s; relay := relay s; buzzer := buzzer s;
     manual_override := manual_override s |}.
Definition set_water_sensor (x : WaterLevelSensor.t) (s : t) : t :=
  {| connected := connected s; gas_sensor := gas_sensor s; ldr_sensor := ldr_sensor s;
     water_sensor := x; relay := relay s; buzzer := buzzer s;
     manual_override := manual_override s |}.
Definition set_relay (r : RelayController.t) (s : t) : t :=
  {| connected := connected s; gas_sensor := gas_sensor s; ldr_sensor := ldr_sensor s;
     water_sensor := water_sensor s; relay := r; buzzer := buzzer s;
     manual_override := manual_override s |}.
Definition set_buzzer (b : BuzzerController.t) (s : t) : t :=
  {| connected := connected s; gas_sensor := gas_sensor s; ldr_sensor := ldr_sensor s;
     water_sensor := water_sensor s; relay := relay s; buzzer := b;
     manual_override := manual_override s |}.
Definition set_manual_override (o : Override) (s : t) : t :=
  {| connected := connected s; gas_sensor := gas_sensor s; ldr_sensor := ldr_sensor s;
     water_sensor := water_sensor s; relay := relay s; buzzer := buzzer s;
     manual_override := o |}.

(** [self.gas_sensor.m(...)] and so on. *)
Definition on_gas_sensor {A} : M GasSensor.t A -> M t A := zoom gas_sensor set_gas_sensor.
Definition on_ldr_sensor {A} : M LDRSensor.t A -> M t A := zoom ldr_sensor set_ldr_sensor.
Definition on_water_sensor {A} : M WaterLevelSensor.t A -> M t A :=
  zoom water_sensor set_water_sensor.
Definition on_relay {A} : M RelayController.t A -> M t A := zoom relay set_relay.
Definition on_buzzer {A} : M BuzzerController.t A -> M t A := zoom buzzer set_buzzer.

(** The loop of [connect_wifi]:
    [while not self.wlan.isconnected() and timeout > 0]. *)
Fixpoint wait_for_wifi (timeout : nat) : M t unit :=
  up <- wlan_poll ;;
  match timeout with
  | O => ret tt
  | S timeout' =>
      if negb up then
        print (Text ".") ;; sleep (1 # 1) ;; wait_for_wifi timeout'
      else ret tt
  end.

Definition connect_wifi : M t unit :=
  mp <- micropython ;;
  if negb mp then ret tt
  else
    emit (WlanActive true) ;;
    up <- wlan_poll ;;
    if negb up then
      print (Text "Connecting") ;;
      emit (WlanConnect WIFI_SSID WIFI_PASSWORD) ;;
      wait_for_wifi 30 ;;
      up' <- wlan_poll ;;
      if up' then
        modify (set_connected true) ;;
        print (Text "WiFi Connected!")
      else
        print (Text "WiFi Connection Failed!") ;;
        modify (set_connected false)
    else
      modify (set_connected true) ;;
      print (Text "Already connected").

Definition send_to_blynk (virtual_pin value : Z) : M t bool :=
  c <- gets connected ;;
  mp <- micropython ;;
  if negb c || negb mp then ret false
  else
    try_except
      (let url := "http://blynk.cloud/external/api/update?token="
                    ++ BLYNK_AUTH_TOKEN ++ "&v" ++ str virtual_pin ++ "="
                    ++ str value in
       response <- requests_get url ;;
       response_close response ;;
       ret true)%string
      (fun e =>
         print (BlynkUpdateErrorLine e) ;;
         ret false).

Definition log_event (event_code description : string) : M t bool :=
  c <- gets connected ;;
  mp <- micropython ;;
  if negb c || negb mp then ret false
  else
    try_except
      (let url := "http://blynk.cloud/external/api/logEvent?token="
                    ++ BLYNK_AUTH_TOKEN ++ "&code=" ++ event_code in
       response <- requests_get url ;;
       response_close response ;;
       ret true)%string
      (fun e =>
         print (BlynkEventErrorLine e) ;;
         ret false).

Definition handle_gas_detection : M t GasSensor.Status :=
  gas_status <- on_gas_sensor GasSensor.get_status ;;
  s <- get ;;
  (if GasSensor.detected gas_status then
     when (negb (BuzzerController.is_alarming (buzzer s)))
          (print (GasLeakBanner (GasSensor.analog gas_status)
                                (GasSensor.threshold (gas_sensor s)))) ;;
     on_buzzer BuzzerController.alarm_on ;;
     when (connected s)
          (send_to_blynk V_PIN_GAS_LEVEL (GasSensor.analog gas_status) ;;
           log_event "gas_alert" ("Level: " ++ str (GasSensor.analog gas_status))%string ;;
           ret tt)
   else
     when (BuzzerController.is_alarming (buzzer s))
          (print GasNormalLine ;;
           on_buzzer BuzzerController.alarm_off)) ;;
  ret gas_status.

Definition handle_garden_light : M t LDRSensor.Status :=
  ldr_status <- on_ldr_sensor LDRSensor.get_status ;;
  s <- get ;;
  when (negb (ov_garden (manual_override s)))
       (if LDRSensor.st_is_dark ldr_status
        then on_relay (RelayController.control_garden_light true)
        else on_relay (RelayController.control_garden_light false)) ;;
  ret ldr_status.

Definition handle_water_tank : M t WaterLevelSensor.Status :=
  tank_status <- on_water_sensor WaterLevelSensor.get_tank_status ;;
  s <- get ;;
  when (negb (ov_motor (manual_override s)))
       (if WaterLevelSensor.st_can_run_motor tank_status
        then on_relay (RelayController.control_motor true)
        else on_relay (RelayController.control_motor false)) ;;
  ret tank_status.

Definition print_system_status : M t unit :=
  gas_status <- on_gas_sensor GasSensor.get_status ;;
  ldr_status <- on_ldr_sensor LDRSensor.get_status ;;
  tank_status <- on_water_sensor WaterLevelSensor.get_tank_status ;;
  relay_status <- on_relay RelayController.get_status ;;
  s <- get ;;
  print (StatusPanel (GasSensor.analog gas_status)
                     (GasSensor.threshold (gas_sensor s))
                     (GasSensor.status_text gas_status)
                     (LDRSensor.light_status ldr_status)
                     (WaterLevelSensor.overhead_status tank_status)
                     (WaterLevelSensor.underground_status tank_status)
                     (WaterLevelSensor.motor_status tank_status)
                     (RelayController.st_light relay_status)
                     (RelayController.st_fan relay_status)
                     (RelayController.st_motor relay_status)
                     (RelayController.st_garden relay_status)
                     (connected s)).

Definition cleanup : M t unit :=
  print (Text "[1/3] Turning off all devices...") ;;
  on_relay RelayController.turn_off_all ;;
  print (Text "[2/3] Silencing alarm...") ;;
  on_buzzer BuzzerController.alarm_off ;;
  print (Text "[3/3] Disconnecting WiFi...") ;;
  mp <- micropython ;;
  when mp (emit (WlanActive false)) ;;
  print (Text "System shutdown complete").

(** The block of [run] under [if self.connected and loop_count % 5 == 0]. *)
Definition push_readings : M t unit :=
  gas_level <- on_gas_sensor GasSensor.get_gas_level ;;
  full <- on_water_sensor WaterLevelSensor.is_overhead_full ;;
  let tank_full := if full then 1 else 0 in
  dark <- on_ldr_sensor LDRSensor.is_dark ;;
  let light_status := if dark then 0 else 1 in
  send_to_blynk V_PIN_GAS_LEVEL gas_level ;;
  send_to_blynk V_PIN_TANK_STATUS tank_full ;;
  send_to_blynk V_PIN_LDR_STATUS light_status ;;
  ret tt.

(** What [run] does in one pass after the three handlers: the status
    panel every 10th pass, the readings to Blynk every 5th. *)
Definition report (loop_count : Z) : M t unit :=
  when (loop_count mod 10 =? 0) print_system_status ;;
  s <- get ;;
  when (connected s && (loop_count mod 5 =? 0)) push_readings.

(** One pass through the body of [while True] in [run]; returns the
    incremented [loop_count]. *)
Definition loop_body (loop_count : Z) : M t Z :=
  let loop_count := loop_count + 1 in
  handle_gas_detection ;;
  handle_garden_light ;;
  handle_water_tank ;;
  report loop_count ;;
  sleep (1 # 1) ;;
  ret loop_count.

Fixpoint loop (iterations : nat) (loop_count : Z) : M t Z :=
  match iterations with
  | O => ret loop_count
  | S n => loop_count' <- loop_body loop_count ;; loop n loop_count'
  end.

(** [run], with the operator's [KeyboardInterrupt] arriving once
    [iterations] passes through the loop are complete. *)
Definition run (iterations : nat) : M t unit :=
  print (Text "Starting Main Control Loop") ;;
  loop iterations 0 ;;
  print (Text "SYSTEM SHUTDOWN INITIATED") ;;
  cleanup.

Definition blank : t :=
  {| connected := false;
     gas_sensor := GasSensor.blank;
     ldr_sensor := LDRSensor.blank;
     water_sensor := WaterLevelSensor.blank;
     relay := RelayController.blank;
     buzzer := BuzzerController.blank;
     manual_override := {| ov_light := false; ov_fan := false;
                           ov_motor := false; ov_garden := false |} |}.

Definition __init__ : M t unit :=
  modify (set_connected false) ;;
  print (Text "[STEP 1/5] Initializing Sensors...") ;;
  on_gas_sensor (GasSensor.__init__ PIN_MQ2_ANALOG PIN_MQ2_DIGITAL GAS_THRESHOLD) ;;
  on_ldr_sensor (LDRSensor.__init__ PIN_LDR) ;;
  on_water_sensor (WaterLevelSensor.__init__ PIN_FLOAT_OVERHEAD PIN_FLOAT_UNDERGROUND) ;;
  print (Text "[STEP 2/5] Initializing Controllers...") ;;
  on_relay (RelayController.__init__ PIN_RELAY_LIGHT PIN_RELAY_FAN
                                     PIN_RELAY_MOTOR PIN_RELAY_GARDEN) ;;
  on_buzzer (BuzzerController.__init__ PIN_BUZZER) ;;
  modify (set_manual_override {| ov_light := false; ov_fan := false;
                                 ov_motor := false; ov_garden := false |}) ;;
  print (Text "[STEP 3/5] Sensor Warmup...") ;;
  mp <- micropython ;;
  on_gas_sensor (GasSensor.warmup (if negb mp then 5 else 10)) ;;
  (if mp then
     print (Text "[STEP 4/5] WiFi Connection...") ;;
     connect_wifi
   else
     print (Text "[STEP 4/5] WiFi - Skipped (Simulation Mode)") ;;
     modify (set_connected false)) ;;
  print (Text "[STEP 5/5] System Initialization Complete!") ;;
  on_buzzer (BuzzerController.beep_pattern 2 (1 # 10) (1 # 10)) ;;
  print (Text "SYSTEM READY").

End HomeAutomationSystem.

(* ================================================================= *)
(** * Vocabulary of the statements *)

(** ** Methods *)

(** [m] always returns (it never raises). *)
Definition total {S A} (m : M S A) : Prop :=
  forall s w, exists a, result (m s w) = Ok a.

(** [m] leaves the attribute (or view) [f] of its object as it was. *)
Definition keeps {S A B} (f : S -> B) (m : M S A) : Prop :=
  forall s w, f (state (m s w)) = f s.

(** [m] leaves the view [g] of the world as it was. *)
Definition wkeeps {S A B} (g : World -> B) (m : M S A) : Prop :=
  forall s w, g (world (m s w)) = g w.

(** [m] prints and sends nothing that satisfies [p]. *)
Definition silent {S A} (p : Output -> bool) (m : M S A) : Prop :=
  forall s w, existsb p (output (m s w)) = false.

(** Started from an object satisfying [P], [m] prints and sends nothing
    that satisfies [p]. *)
Definition silent_under {S A} (P : S -> Prop) (p : Output -> bool) (m : M S A) : Prop :=
  forall s w, P s -> existsb p (output (m s w)) = false.

(** Whatever [m] starts from, [Q] holds of what it leaves. *)
Definition ensures {S A} (m : M S A) (Q : S -> World -> Prop) : Prop :=
  forall s w, Q (state (m s w)) (world (m s w)).

(** ** Readings *)

(** What line [c] shows [k] readings from now. *)
Definition sample_at (w : World) (c : Channel) (k : nat) : Z :=
  samples (env w) c (k + reads w c).

(** The world in which line [c] shows [v] at its [k]-th reading from
    now, and everything else is as in [w]. *)
Definition feed (c : Channel) (k : nat) (v : Z) (w : World) : World :=
  {| env := {| MICROPYTHON := MICROPYTHON (env w);
               samples := fun c' n =>
                 if Channel_eqb c' c && Nat.eqb n (k + reads w c) then v
                 else samples (env w) c' n;
               http := http (env w);
               wlan_isconnected := wlan_isconnected (env w) |};
     reads := reads w;
     requests := requests w;
     wlan_polls := wlan_polls w |}.


(** ** The relay controller *)

(** What [RelayController.get_status] reports, by platform. *)
Definition reported (mp : bool) (r : RelayController.t) : RelayController.Status :=
  if mp then
    {| RelayController.st_light := py_not (Pin.value (RelayController.light r));
       RelayController.st_fan := py_not (Pin.value (RelayController.fan r));
       RelayController.st_motor := py_not (Pin.value (RelayController.motor r));
       RelayController.st_garden := py_not (Pin.value (RelayController.garden r)) |}
  else
    {| RelayController.st_light := py_not (RelayController.light_state r);
       RelayController.st_fan := py_not (RelayController.fan_state r);
       RelayController.st_motor := py_not (RelayController.motor_state r);
       RelayController.st_garden := py_not (RelayController.garden_state r) |}.

Definition all_off : RelayController.Status :=
  {| RelayController.st_light := false; RelayController.st_fan := false;
     RelayController.st_motor := false; RelayController.st_garden := false |}.

(** The relay object after a single-appliance command, by platform:
    [pin] and [sim] are the setters of the attribute the command writes
    on MicroPython and in simulation. *)
Definition driven (mp : bool)
    (pin : (Pin.t -> Pin.t) -> RelayController.t -> RelayController.t)
    (sim : Z -> RelayController.t -> RelayController.t)
    (on : bool) (r : RelayController.t) : RelayController.t :=
  let value := if on then 0 else 1 in
  if mp then pin (Pin.set_value value) r else sim value r.

(** ** The buzzer controller *)

(** The level the buzzer line is driven to. *)
Definition drive (mp : bool) (b : BuzzerController.t) : Z :=
  if mp then Pin.value (BuzzerController.buzzer b)
  else BuzzerController.buzzer_state b.

(** The latch agrees with the line. *)
Definition latch_matches_line (mp : bool) (b : BuzzerController.t) : Prop :=
  BuzzerController.is_alarming b = true <-> drive mp b = 1.

(** The operations of a constructed [BuzzerController]. *)
Inductive BuzzerOp : Type :=
| AlarmOn
| AlarmOff
| Beep (duration : Q)
| BeepPattern (count : Z) (beep_time pause_time : Q).

Definition buzzer_call (op : BuzzerOp) : M BuzzerController.t unit :=
  match op with
  | AlarmOn => BuzzerController.alarm_on
  | AlarmOff => BuzzerController.alarm_off
  | Beep duration => BuzzerController.beep duration
  | BeepPattern count beep_time pause_time =>
      BuzzerController.beep_pattern count beep_time pause_time
  end.

(** The buzzer objects a program can hold: constructed by [__init__],
    then operated any number of times. *)
Inductive buzzer_reached : World -> BuzzerController.t -> Prop :=
| reached_init pin b0 w :
    buzzer_reached (world (BuzzerController.__init__ pin b0 w))
                   (state (BuzzerController.__init__ pin b0 w))
| reached_call op b w :
    buzzer_reached w b ->
    buzzer_reached (world (buzzer_call op b w)) (state (buzzer_call op b w)).

(** ** Alerts among the output *)

Definition is_gas_banner (o : Output) : bool :=
  match o with Print (GasLeakBanner _ _) => true | _ => false end.

Definition is_gas_normal (o : Output) : bool :=
  match o with Print GasNormalLine => true | _ => false end.

(** The request [log_event("gas_alert", ...)] sends. *)
Definition gas_alert_url : string :=
  ("http://blynk.cloud/external/api/logEvent?token="
     ++ config.BLYNK_AUTH_TOKEN ++ "&code=gas_alert")%string.

Definition is_gas_alert (o : Output) : bool :=
  match o with HttpGet url => String.eqb url gas_alert_url | _ => false end.

Definition is_garden_line (o : Output) : bool :=
  match o with Print (GardenLine _) => true | _ => false end.

Definition is_motor_line (o : Output) : bool :=
  match o with Print (MotorLine _) => true | _ => false end.

Definition count (p : Output -> bool) (out : list Output) : nat :=
  List.length (filter p out).

(** ** The manual command channel *)

Inductive Appliance : Type := LIGHT | FAN | MOTOR | GARDEN.

(** Modelled from the spec: the manual command channel, which is no part
    of the sources.  It "supplies updates to ManualOverride flags and to
    manually-set appliance values for light/fan/garden/motor"; here it
    writes [manual_override] and calls the relay's [control_*]. *)
Inductive Command : Type :=
| SetOverride (a : Appliance) (flag : bool)
| Switch (a : Appliance) (on : bool).

Definition set_override (a : Appliance) (flag : bool)
    (o : HomeAutomationSystem.Override) : HomeAutomationSystem.Override :=
  match a with
  | LIGHT =>
      {| HomeAutomationSystem.ov_light := flag;
         HomeAutomationSystem.ov_fan := HomeAutomationSystem.ov_fan o;
         HomeAutomationSystem.ov_motor := HomeAutomationSystem.ov_motor o;
         HomeAutomationSystem.ov_garden := HomeAutomationSystem.ov_garden o |}
  | FAN =>
      {| HomeAutomationSystem.ov_light := HomeAutomationSystem.ov_light o;
         HomeAutomationSystem.ov_fan := flag;
         HomeAutomationSystem.ov_motor := HomeAutomationSystem.ov_motor o;
         HomeAutomationSystem.ov_garden := HomeAutomationSystem.ov_garden o |}
  | MOTOR =>
      {| HomeAutomationSystem.ov_light := HomeAutomationSystem.ov_light o;
         HomeAutomationSystem.ov_fan := HomeAutomationSystem.ov_fan o;
         HomeAutomationSystem.ov_motor := flag;
         HomeAutomationSystem.ov_garden := HomeAutomationSystem.ov_garden o |}
  | GARDEN =>
      {| HomeAutomationSystem.ov_light := HomeAutomationSystem.ov_light o;
         HomeAutomationSystem.ov_fan := HomeAutomationSystem.ov_fan o;
         HomeAutomationSystem.ov_motor := HomeAutomationSystem.ov_motor o;
         HomeAutomationSystem.ov_garden := flag |}
  end.

(** Modelled from the spec: what the manual command channel does to the
    system when a command arrives (between two passes of the loop). *)
Definition command (c : Command) : M HomeAutomationSystem.t unit :=
  match c with
  | SetOverride a flag =>
      modify (fun s =>
        HomeAutomationSystem.set_manual_override
          (set_override a flag (HomeAutomationSystem.manual_override s)) s)
  | Switch LIGHT on => HomeAutomationSystem.on_relay (RelayController.control_light on)
  | Switch FAN on => HomeAutomationSystem.on_relay (RelayController.control_fan on)
  | Switch MOTOR on => HomeAutomationSystem.on_relay (RelayController.control_motor on)
  | Switch GARDEN on =>
      HomeAutomationSystem.on_relay (RelayController.control_garden_light on)
  end.

(** The states of the system: built by [__init__], then any sequence of
    passes through the loop and manual commands. *)
Inductive reachable : World -> HomeAutomationSystem.t -> Prop :=
| reach_init w0 :
    reachable (world (HomeAutomationSystem.__init__ HomeAutomationSystem.blank w0))
              (state (HomeAutomationSystem.__init__ HomeAutomationSystem.blank w0))
| reach_pass loop_count w s :
    reachable w s ->
    reachable (world (HomeAutomationSystem.loop_body loop_count s w))
              (state (HomeAutomationSystem.loop_body loop_count s w))
| reach_command c w s :
    reachable w s ->
    reachable (world (command c s w)) (state (command c s w)).

(** What [relay.get_status()] reads for the motor and for the garden
    light in a state of the system. *)
Definition motor_on (s : HomeAutomationSystem.t) (w : World) : bool :=
  match result (RelayController.get_status (HomeAutomationSystem.relay s) w) with
  | Ok st => RelayController.st_motor st
  | Raise _ => false
  end.

Definition garden_on (s : HomeAutomationSystem.t) (w : World) : bool :=
  match result (RelayController.get_status (HomeAutomationSystem.relay s) w) with
  | Ok st => RelayController.st_garden st
  | Raise _ => false
  end.

(** The request went through and its response was closed. *)
Definition completes (h : HttpOutcome) : bool :=
  match h with Completed => true | _ => false end.

(** ** Scenarios *)

(** A line that shows the listed values in turn and [rest] from then on. *)
Definition script (vs : list Z) (rest : Z) : nat -> Z :=
  fun n => nth n vs rest.

(** The world at power-up: nothing read, nothing requested yet. *)
Definition boot (e : Env) : World :=
  {| env := e; reads := fun _ => O; requests := O; wlan_polls := O |}.

(** A sensor whose analog line shows 300, then 500 (two draws of
    [random.randint(200, 600)] in simulation; two conversions of a
    rising level on the board), and an overhead float switch that shows
    full, then not full; the underground tank has water. *)
Definition wavering (mp : bool) : Env :=
  {| MICROPYTHON := mp;
     samples := fun c =>
       match c with
       | MQ2_ANALOG => script [300; 500] 300
       | MQ2_DIGITAL => script [] 0
       | LDR => script [] 1
       | FLOAT_OVERHEAD => script [1; 0] 0
       | FLOAT_UNDERGROUND => script [] 1
       end;
     http := fun _ => Completed;
     wlan_isconnected := fun _ => false |}.

(** The board with WiFi up and Blynk answering, gas steadily at 450
    (threshold 400), darkness, the overhead tank not full, water
    underground. *)
Definition leak_online : Env :=
  {| MICROPYTHON := true;
     samples := fun c =>
       match c with
       | MQ2_ANALOG => script [] 450
       | MQ2_DIGITAL => script [] 1
       | LDR => script [] 0
       | FLOAT_OVERHEAD => script [] 0
       | FLOAT_UNDERGROUND => script [] 1
       end;
     http := fun _ => Completed;
     wlan_isconnected := fun _ => true |}.

(** The board offline, clean air, daylight, the overhead tank full at
    every reading, water underground. *)
Definition tank_full : Env :=
  {| MICROPYTHON := true;
     samples := fun c =>
       match c with
       | MQ2_ANALOG => script [] 250
       | MQ2_DIGITAL => script [] 0
       | LDR => script [] 1
       | FLOAT_OVERHEAD => script [] 1
       | FLOAT_UNDERGROUND => script [] 1
       end;
     http := fun _ => Completed;
     wlan_isconnected := fun _ => false |}.

(** A buzzer constructed on the board [leak_online], then sounded. *)
Definition buzzer_built : Outcome BuzzerController.t unit :=
  BuzzerController.__init__ config.PIN_BUZZER BuzzerController.blank (boot leak_online).

Definition buzzer_sounded : Outcome BuzzerController.t unit :=
  buzzer_call AlarmOn (state buzzer_built) (world buzzer_built).

(** The system after [__init__] on a given board. *)
Definition started (e : Env) : Outcome HomeAutomationSystem.t unit :=
  HomeAutomationSystem.__init__ HomeAutomationSystem.blank (boot e).

(** On the board with the tank full: the operator takes the motor over,
    then switches it on. *)
Definition motor_taken_over : Outcome HomeAutomationSystem.t unit :=
  command (SetOverride MOTOR true) (state (started tank_full)) (world (started tank_full)).

Definition motor_forced : Outcome HomeAutomationSystem.t unit :=
  command (Switch MOTOR true) (state motor_taken_over) (world motor_taken_over).

(** ... and the loop makes its next pass. *)
Definition motor_forced_pass : Outcome HomeAutomationSystem.t Z :=
  HomeAutomationSystem.loop_body 0 (state motor_forced) (world motor_forced).

(** ** More of the output, and more views *)

Definition is_sleep (o : Output) : bool :=
  match o with Sleep _ => true | _ => false end.

Definition is_request (o : Output) : bool :=
  match o with HttpGet _ => true | _ => false end.




Definition is_light_or_fan_line (o : Output) : bool :=
  match o with Print (LightLine _) | Print (FanLine _) => true | _ => false end.

Definition is_wlan_connect (o : Output) : bool :=
  match o with WlanConnect _ _ => true | _ => false end.

(** The URL [send_to_blynk(virtual_pin, value)] asks for. *)
Definition update_url (virtual_pin value : Z) : string :=
  ("http://blynk.cloud/external/api/update?token="
     ++ config.BLYNK_AUTH_TOKEN ++ "&v" ++ str virtual_pin ++ "=" ++ str value)%string.

(** The URL [log_event(event_code, ...)] asks for. *)
Definition event_url (event_code : string) : string :=
  ("http://blynk.cloud/external/api/logEvent?token="
     ++ config.BLYNK_AUTH_TOKEN ++ "&code=" ++ event_code)%string.

(** The error line a failed request leaves on the console, if any. *)
Definition update_error (h : HttpOutcome) : list Output :=
  match h with
  | Completed => []
  | GetRaises e | CloseRaises e => [Print (BlynkUpdateErrorLine e)]
  end.

Definition event_error (h : HttpOutcome) : list Output :=
  match h with
  | Completed => []
  | GetRaises e | CloseRaises e => [Print (BlynkEventErrorLine e)]
  end.

(** [self.manual_override] with every flag False. *)
Definition no_override : HomeAutomationSystem.Override :=
  {| HomeAutomationSystem.ov_light := false; HomeAutomationSystem.ov_fan := false;
     HomeAutomationSystem.ov_motor := false; HomeAutomationSystem.ov_garden := false |}.

(** The relay command of an appliance. *)
Definition relay_control (a : Appliance) (on : bool) : M RelayController.t unit :=
  match a with
  | LIGHT => RelayController.control_light on
  | FAN => RelayController.control_fan on
  | MOTOR => RelayController.control_motor on
  | GARDEN => RelayController.control_garden_light on
  end.

Definition Appliance_eqb (a b : Appliance) : bool :=
  match a, b with
  | LIGHT, LIGHT | FAN, FAN | MOTOR, MOTOR | GARDEN, GARDEN => true
  | _, _ => false
  end.

(** The part of the relay object that drives the room light and the fan. *)
Definition light_and_fan (r : RelayController.t) : Pin.t * Pin.t * Z * Z :=
  (RelayController.light r, RelayController.fan r,
   RelayController.light_state r, RelayController.fan_state r).

(** The world after [k] more answers of [wlan.isconnected()]. *)
Definition polled (k : nat) (w : World) : World :=
  {| env := env w; reads := reads w; requests := requests w;
     wlan_polls := (k + wlan_polls w)%nat |}.

(* ================================================================= *)
(** * Rules for walking through a method *)

Section Rules.
Context {S : Type}.

Lemma bind_ok {A B} (m : M S A) (k : A -> M S B) s w a :
  result (m s w) = Ok a ->
  bind m k s w =
    let o := m s w in
    let o' := k a (state o) (world o) in
    mkOutcome (result o') (state o') (world o') (output o ++ output o').
Proof.
  unfold bind. destruct (m s w) as [r s1 w1 o1]; simpl.
  intros ->. destruct (k a s1 w1); reflexivity.
Qed.

Lemma total_ret {A} (a : A) : total (@ret S A a).
Proof. intros s w; exists a; reflexivity. Qed.

Lemma total_bind {A B} (m : M S A) (k : A -> M S B) :
  total m -> (forall a, total (k a)) -> total (bind m k).
Proof.
  intros Hm Hk s w. destruct (Hm s w) as [a Ha].
  rewrite (bind_ok _ _ _ _ _ Ha); simpl. apply Hk.
Qed.

Lemma total_try_except {A} (body : M S A) handler :
  (forall e, total (handler e)) -> total (try_except body handler).
Proof.
  intros Hh s w. unfold try_except.
  destruct (body s w) as [[a | e] s1 w1 o1].
  - exists a; reflexivity.
  - destruct (Hh e s1 w1) as [a Ha]. exists a.
    destruct (handler e s1 w1); assumption.
Qed.

Lemma total_get : total (@get S).
Proof. intros s w; eexists; reflexivity. Qed.
Lemma total_gets {A} (f : S -> A) : total (gets f).
Proof. intros s w; eexists; reflexivity. Qed.
Lemma total_modify f : total (@modify S f).
Proof. intros s w; eexists; reflexivity. Qed.
Lemma total_emit o : total (@emit S o).
Proof. intros s w; eexists; reflexivity. Qed.
Lemma total_micropython : total (@micropython S).
Proof. intros s w; eexists; reflexivity. Qed.
Lemma total_sample c : total (@sample S c).
Proof. intros s w; eexists; reflexivity. Qed.
Lemma total_wlan_poll : total (@wlan_poll S).
Proof. intros s w; eexists; reflexivity. Qed.

Lemma total_zoom {T A} (proj : S -> T) upd (m : M T A) :
  total m -> total (zoom proj upd m).
Proof.
  intros Hm s w. destruct (Hm (proj s) w) as [a Ha]. exists a.
  unfold zoom. destruct (m (proj s) w); assumption.
Qed.

Lemma total_for_range n : forall i (body : Z -> M S unit),
  (forall j, total (body j)) -> total (for_range n i body).
Proof.
  induction n as [| n IH]; intros i body Hb; simpl.
  - apply total_ret.
  - apply total_bind; [apply Hb | intros _; apply IH, Hb].
Qed.

Lemma keeps_ret {A B} (f : S -> B) (a : A) : keeps f (ret a).
Proof. intros s w; reflexivity. Qed.

Lemma keeps_bind {A B C} (f : S -> C) (m : M S A) (k : A -> M S B) :
  keeps f m -> (forall a, keeps f (k a)) -> keeps f (bind m k).
Proof.
  intros Hm Hk s w. unfold bind. specialize (Hm s w).
  destruct (m s w) as [[a | e] s1 w1 o1]; simpl in *; [| assumption].
  specialize (Hk a s1 w1). destruct (k a s1 w1); simpl in *. congruence.
Qed.

Lemma keeps_try_except {A C} (f : S -> C) (body : M S A) handler :
  keeps f body -> (forall e, keeps f (handler e)) -> keeps f (try_except body handler).
Proof.
  intros Hm Hk s w. unfold try_except. specialize (Hm s w).
  destruct (body s w) as [[a | e] s1 w1 o1]; simpl in *; [assumption |].
  specialize (Hk e s1 w1). destruct (handler e s1 w1); simpl in *. congruence.
Qed.

Lemma keeps_get {C} (f : S -> C) : keeps f get.
Proof. intros s w; reflexivity. Qed.
Lemma keeps_gets {A C} (f : S -> C) (g : S -> A) : keeps f (gets g).
Proof. intros s w; reflexivity. Qed.
Lemma keeps_emit {C} (f : S -> C) o : keeps f (emit o).
Proof. intros s w; reflexivity. Qed.
Lemma keeps_micropython {C} (f : S -> C) : keeps f micropython.
Proof. intros s w; reflexivity. Qed.
Lemma keeps_sample {C} (f : S -> C) c : keeps f (sample c).
Proof. intros s w; reflexivity. Qed.
Lemma keeps_wlan_poll {C} (f : S -> C) : keeps f wlan_poll.
Proof. intros s w; reflexivity. Qed.
Lemma keeps_requests_get {C} (f : S -> C) url : keeps f (requests_get url).
Proof. intros s w. unfold requests_get. destruct (http _ _); reflexivity. Qed.
Lemma keeps_response_close {C} (f : S -> C) r : keeps f (response_close r).
Proof. intros s w. unfold response_close. destruct (close_error r); reflexivity. Qed.
Lemma keeps_modify {C} (f : S -> C) g :
  (forall s, f (g s) = f s) -> keeps f (modify g).
Proof. intros H s w; apply H. Qed.

Lemma keeps_zoom {T A C} (f : S -> C) (proj : S -> T) upd (m : M T A) :
  (forall t s, f (upd t s) = f s) -> keeps f (zoom proj upd m).
Proof.
  intros H s w. unfold zoom. destruct (m (proj s) w); simpl. apply H.
Qed.

Lemma keeps_zoom_sub {T A C} (f : S -> C) (h : T -> C) (proj : S -> T) upd (m : M T A) :
  (forall t s, f (upd t s) = h t) -> (forall s, f s = h (proj s)) ->
  keeps h m -> keeps f (zoom proj upd m).
Proof.
  intros Hu Hp Hm s w. unfold zoom. specialize (Hm (proj s) w).
  destruct (m (proj s) w); simpl in *. rewrite Hu, Hp. assumption.
Qed.

Lemma keeps_for_range {C} (f : S -> C) n : forall i (body : Z -> M S unit),
  (forall j, keeps f (body j)) -> keeps f (for_range n i body).
Proof.
  induction n as [| n IH]; intros i body Hb; simpl.
  - apply keeps_ret.
  - apply keeps_bind; [apply Hb | intros _; apply IH, Hb].
Qed.

Lemma wkeeps_ret {A B} (g : World -> B) (a : A) : wkeeps g (@ret S A a).
Proof. intros s w; reflexivity. Qed.

Lemma wkeeps_bind {A B C} (g : World -> C) (m : M S A) (k : A -> M S B) :
  wkeeps g m -> (forall a, wkeeps g (k a)) -> wkeeps g (bind m k).
Proof.
  intros Hm Hk s w. unfold bind. specialize (Hm s w).
  destruct (m s w) as [[a | e] s1 w1 o1]; simpl in *; [| assumption].
  specialize (Hk a s1 w1). destruct (k a s1 w1); simpl in *. congruence.
Qed.

Lemma wkeeps_try_except {A C} (g : World -> C) (body : M S A) handler :
  wkeeps g body -> (forall e, wkeeps g (handler e)) -> wkeeps g (try_except body handler).
Proof.
  intros Hm Hk s w. unfold try_except. specialize (Hm s w).
  destruct (body s w) as [[a | e] s1 w1 o1]; simpl in *; [assumption |].
  specialize (Hk e s1 w1). destruct (handler e s1 w1); simpl in *. congruence.
Qed.

Lemma wkeeps_get {C} (g : World -> C) : wkeeps g (@get S).
Proof. intros s w; reflexivity. Qed.
Lemma wkeeps_gets {A C} (g : World -> C) (f : S -> A) : wkeeps g (gets f).
Proof. intros s w; reflexivity. Qed.
Lemma wkeeps_modify {C} (g : World -> C) f : wkeeps g (@modify S f).
Proof. intros s w; reflexivity. Qed.
Lemma wkeeps_emit {C} (g : World -> C) o : wkeeps g (@emit S o).
Proof. intros s w; reflexivity. Qed.
Lemma wkeeps_micropython {C} (g : World -> C) : wkeeps g (@micropython S).
Proof. intros s w; reflexivity. Qed.
Lemma wkeeps_response_close {C} (g : World -> C) r : wkeeps g (@response_close S r).
Proof. intros s w. unfold response_close. destruct (close_error r); reflexivity. Qed.

Lemma wkeeps_zoom {T A C} (g : World -> C) (proj : S -> T) upd (m : M T A) :
  wkeeps g m -> wkeeps g (zoom proj upd m).
Proof.
  intros H s w. unfold zoom. specialize (H (proj s) w).
  destruct (m (proj s) w); assumption.
Qed.

Lemma wkeeps_for_range {C} (g : World -> C) n : forall i (body : Z -> M S unit),
  (forall j, wkeeps g (body j)) -> wkeeps g (for_range n i body).
Proof.
  induction n as [| n IH]; intros i body Hb; simpl.
  - apply wkeeps_ret.
  - apply wkeeps_bind; [apply Hb | intros _; apply IH, Hb].
Qed.

(** Sampling, polling and requesting never change the environment, and
    sampling one line leaves the count of every other line alone. *)
Lemma env_sample c : wkeeps env (@sample S c).
Proof. intros s w; reflexivity. Qed.
Lemma env_wlan_poll : wkeeps env (@wlan_poll S).
Proof. intros s w; reflexivity. Qed.
Lemma env_requests_get url : wkeeps env (@requests_get S url).
Proof. intros s w. unfold requests_get. destruct (http _ _); reflexivity. Qed.
Lemma reads_sample c c' :
  Channel_eqb c' c = false -> wkeeps (fun w => reads w c') (@sample S c).
Proof. intros H s w; simpl. rewrite H. reflexivity. Qed.
Lemma reads_wlan_poll c : wkeeps (fun w => reads w c) (@wlan_poll S).
Proof. intros s w; reflexivity. Qed.
Lemma reads_requests_get c url : wkeeps (fun w => reads w c) (@requests_get S url).
Proof. intros s w. unfold requests_get. destruct (http _ _); reflexivity. Qed.

Lemma silent_ret {A} p (a : A) : silent p (@ret S A a).
Proof. intros s w; reflexivity. Qed.

Lemma silent_bind {A B} p (m : M S A) (k : A -> M S B) :
  silent p m -> (forall a, silent p (k a)) -> silent p (bind m k).
Proof.
  intros Hm Hk s w. unfold bind. specialize (Hm s w).
  destruct (m s w) as [[a | e] s1 w1 o1]; simpl in *; [| assumption].
  specialize (Hk a s1 w1). destruct (k a s1 w1); simpl in *.
  rewrite existsb_app, Hm, Hk. reflexivity.
Qed.

Lemma silent_try_except {A} p (body : M S A) handler :
  silent p body -> (forall e, silent p (handler e)) -> silent p (try_except body handler).
Proof.
  intros Hm Hk s w. unfold try_except. specialize (Hm s w).
  destruct (body s w) as [[a | e] s1 w1 o1]; simpl in *; [assumption |].
  specialize (Hk e s1 w1). destruct (handler e s1 w1); simpl in *.
  rewrite existsb_app, Hm, Hk. reflexivity.
Qed.

Lemma silent_requests_get p url :
  p (HttpGet url) = false -> silent p (@requests_get S url).
Proof.
  intros H s w. unfold requests_get. destruct (http _ _); simpl; rewrite H; reflexivity.
Qed.

Lemma silent_for_range p n : forall i (body : Z -> M S unit),
  (forall j, silent p (body j)) -> silent p (for_range n i body).
Proof.
  induction n as [| n IH]; intros i body Hb; simpl.
  - apply silent_ret.
  - apply silent_bind; [apply Hb | intros _; apply IH, Hb].
Qed.

Lemma silent_under_bind {A B} (P : S -> Prop) p (m : M S A) (k : A -> M S B) :
  silent_under P p m -> (forall s w, P s -> P (state (m s w))) ->
  (forall a, silent_under P p (k a)) -> silent_under P p (bind m k).
Proof.
  intros Hm HP Hk s w Hs. unfold bind. specialize (Hm s w Hs). specialize (HP s w Hs).
  destruct (m s w) as [[a | e] s1 w1 o1]; simpl in *; [| assumption].
  specialize (Hk a s1 w1 HP). destruct (k a s1 w1); simpl in *.
  rewrite existsb_app, Hm, Hk. reflexivity.
Qed.

Lemma silent_everywhere {A} (P : S -> Prop) p (m : M S A) :
  silent p m -> silent_under P p m.
Proof. intros H s w _. apply H. Qed.

Lemma silent_zoom {T A} p (proj : S -> T) upd (m : M T A) :
  silent p m -> silent p (zoom proj upd m).
Proof.
  intros H s w. unfold zoom. specialize (H (proj s) w).
  destruct (m (proj s) w); assumption.
Qed.

End Rules.

Create HintDb frame.
#[export] Hint Resolve
  total_ret total_try_except total_get total_gets total_modify total_emit
  total_micropython total_sample total_wlan_poll total_zoom
  keeps_ret keeps_get keeps_gets keeps_emit keeps_micropython keeps_sample
  keeps_wlan_poll keeps_requests_get keeps_response_close
  wkeeps_ret wkeeps_get wkeeps_gets wkeeps_modify wkeeps_emit wkeeps_micropython
  wkeeps_response_close env_sample env_wlan_poll env_requests_get
  reads_wlan_poll reads_requests_get silent_ret : frame.

(** Walk through a method along its binds and branches. *)
Ltac head_of t :=
  match t with
  | ?f _ => head_of f
  | _ => t
  end.

Ltac frame_step :=
  match goal with
  | |- forall _, _ => intro
  | |- _ => solve [auto with frame]
  | |- total (bind _ _) => apply total_bind
  | |- keeps _ (bind _ _) => apply keeps_bind
  | |- wkeeps _ (bind _ _) => apply wkeeps_bind
  | |- silent _ (bind _ _) => apply silent_bind
  | |- total (try_except _ _) => apply total_try_except
  | |- total (zoom _ _ _) => apply total_zoom
  | |- keeps _ (try_except _ _) => apply keeps_try_except
  | |- silent _ (try_except _ _) => apply silent_try_except
  | |- wkeeps _ (try_except _ _) => apply wkeeps_try_except
  | |- total (for_range _ _ _) => apply total_for_range
  | |- keeps _ (for_range _ _ _) => apply keeps_for_range
  | |- wkeeps _ (for_range _ _ _) => apply wkeeps_for_range
  | |- silent _ (for_range _ _ _) => apply silent_for_range
  | |- silent _ (requests_get _) => apply silent_requests_get; reflexivity
  | |- wkeeps _ (zoom _ _ _) => apply wkeeps_zoom
  | |- silent _ (zoom _ _ _) => apply silent_zoom
  | |- keeps _ (zoom _ _ _) =>
      first [ apply keeps_zoom; reflexivity
            | apply keeps_zoom_sub with (h := fun t => t); [reflexivity | reflexivity |] ]
  | |- keeps _ (modify _) => apply keeps_modify; reflexivity
  | |- wkeeps _ (sample _) => apply reads_sample; reflexivity
  | |- silent _ _ => solve [intros ? ?; reflexivity]
  | |- _ (if ?b then _ else _) => destruct b
  | |- _ (match ?x with _ => _ end) => destruct x
  | |- _ (let _ := _ in _) => cbv zeta
  | |- _ ?m => let h := head_of m in progress unfold h
  end.
Ltac frame := repeat frame_step.

Arguments String.append : simpl never.
Arguments str : simpl never.

(** Open the system, the world and its environment into their fields,
    so that a method applied to them computes. *)
Ltac open_world w :=
  let e := fresh "e" in
  let mp := fresh "mp" in
  let sm := fresh "sm" in
  let ht := fresh "ht" in
  let wl := fresh "wl" in
  let rd := fresh "rd" in
  let rq := fresh "rq" in
  let wp := fresh "wp" in
  destruct w as [e rd rq wp]; destruct e as [mp sm ht wl].

(** Run a method on opened arguments as far as it goes, leaving integer
    arithmetic and string building as they are. *)
Ltac run :=
  cbv -[Z.gtb Z.eqb Z.ltb Z.add Z.sub Z.modulo str]; cbn.

Ltac split_ifs :=
  repeat (run;
          match goal with
          | |- context [if ?b then _ else _] => destruct b eqn:?
          | |- context [match ?h ?n with Completed => _ | _ => _ end] =>
              destruct (h n) eqn:?
          end).

(* ================================================================= *)
(** * Bind, step by step *)

Section BindFacts.
Context {S : Type}.

Lemma bind_state {A B} (m : M S A) (k : A -> M S B) s w a :
  result (m s w) = Ok a ->
  state (bind m k s w) = state (k a (state (m s w)) (world (m s w))).
Proof. intros H. rewrite (bind_ok _ _ _ _ _ H). reflexivity. Qed.

(** What the rest of a method keeps, the method shows as its first
    step left it. *)
Lemma bind_keeps_rest {A B C} (f : S -> C) (m : M S A) (k : A -> M S B) s w :
  (forall a, keeps f (k a)) ->
  f (state (bind m k s w)) = f (state (m s w)).
Proof.
  intros Hk. unfold bind. destruct (m s w) as [[a | e] s1 w1 o1]; simpl; [| reflexivity].
  specialize (Hk a s1 w1). destruct (k a s1 w1); assumption.
Qed.

Lemma bind_wkeeps_rest {A B C} (g : World -> C) (m : M S A) (k : A -> M S B) s w :
  (forall a, wkeeps g (k a)) ->
  g (world (bind m k s w)) = g (world (m s w)).
Proof.
  intros Hk. unfold bind. destruct (m s w) as [[a | e] s1 w1 o1]; simpl; [| reflexivity].
  specialize (Hk a s1 w1). destruct (k a s1 w1); assumption.
Qed.

End BindFacts.

Lemma sample_at_same w w' c k :
  env w' = env w -> reads w' c = reads w c -> sample_at w' c k = sample_at w c k.
Proof. unfold sample_at. intros -> ->. reflexivity. Qed.

Lemma count_app p (a b : list Output) : count p (a ++ b) = (count p a + count p b)%nat.
Proof. unfold count. rewrite filter_app, length_app. reflexivity. Qed.

Lemma count_silent p (out : list Output) : existsb p out = false -> count p out = O.
Proof.
  unfold count. induction out as [| o out IH]; simpl; [reflexivity |].
  destruct (p o); simpl; [discriminate | exact IH].
Qed.

(* ================================================================= *)
(** * The relay controller *)

Lemma get_status_eq r w :
  RelayController.get_status r w =
  mkOutcome (Ok (reported (MICROPYTHON (env w)) r)) r w [].
Proof.
  unfold RelayController.get_status, reported, bind, micropython, get, ret; simpl.
  destruct (MICROPYTHON (env w)); reflexivity.
Qed.

Lemma control_light_eq b r w :
  RelayController.control_light b r w =
  mkOutcome (Ok tt)
    (driven (MICROPYTHON (env w)) RelayController.set_light
            RelayController.set_light_state b r)
    w [Print (LightLine b)].
Proof.
  unfold RelayController.control_light, driven, bind, micropython, modify, print, emit; simpl.
  destruct (MICROPYTHON (env w)); reflexivity.
Qed.

Lemma control_fan_eq b r w :
  RelayController.control_fan b r w =
  mkOutcome (Ok tt)
    (driven (MICROPYTHON (env w)) RelayController.set_fan
            RelayController.set_fan_state b r)
    w [Print (FanLine b)].
Proof.
  unfold RelayController.control_fan, driven, bind, micropython, modify, print, emit; simpl.
  destruct (MICROPYTHON (env w)); reflexivity.
Qed.

Lemma control_motor_eq b r w :
  RelayController.control_motor b r w =
  mkOutcome (Ok tt)
    (driven (MICROPYTHON (env w)) RelayController.set_motor
            RelayController.set_motor_state b r)
    w [Print (MotorLine b)].
Proof.
  unfold RelayController.control_motor, driven, bind, micropython, modify, print, emit; simpl.
  destruct (MICROPYTHON (env w)); reflexivity.
Qed.

Lemma control_garden_light_eq b r w :
  RelayController.control_garden_light b r w =
  mkOutcome (Ok tt)
    (driven (MICROPYTHON (env w)) RelayController.set_garden
            RelayController.set_garden_state b r)
    w [Print (GardenLine b)].
Proof.
  unfold RelayController.control_garden_light, driven, bind, micropython, modify, print, emit;
    simpl.
  destruct (MICROPYTHON (env w)); reflexivity.
Qed.

Lemma turn_off_all_eq r w :
  exists r',
    RelayController.turn_off_all r w = mkOutcome (Ok tt) r' w [Print RelaysOffLine] /\
    reported (MICROPYTHON (env w)) r' = all_off.
Proof.
  unfold RelayController.turn_off_all, bind, micropython, modify, print, emit; simpl.
  destruct (MICROPYTHON (env w)); eexists; split; reflexivity.
Qed.

Lemma relay_init_eq p1 p2 p3 p4 r w :
  exists r',
    RelayController.__init__ p1 p2 p3 p4 r w =
      mkOutcome (Ok tt) r' w [Print RelaysOffLine] /\
    reported (MICROPYTHON (env w)) r' = all_off.
Proof.
  open_world w. destruct mp; eexists; split; reflexivity.
Qed.

(** C10.  Each single-appliance command is a frame-preserving update of
    the status readback: after [control_X s] (X one of light, fan,
    motor, garden), [get_status] reports [s] for X, logical true meaning
    on whatever the active-low level behind it, and reports for the
    other three appliances what it reported before the command. *)
Theorem relay_command_updates_one_field :
  forall (r : RelayController.t) (w : World) (s : bool),
  exists before : RelayController.Status,
    result (RelayController.get_status r w) = Ok before /\
    result ((RelayController.control_light s ;; RelayController.get_status) r w) =
      Ok {| RelayController.st_light := s;
            RelayController.st_fan := RelayController.st_fan before;
            RelayController.st_motor := RelayController.st_motor before;
            RelayController.st_garden := RelayController.st_garden before |} /\
    result ((RelayController.control_fan s ;; RelayController.get_status) r w) =
      Ok {| RelayController.st_light := RelayController.st_light before;
            RelayController.st_fan := s;
            RelayController.st_motor := RelayController.st_motor before;
            RelayController.st_garden := RelayController.st_garden before |} /\
    result ((RelayController.control_motor s ;; RelayController.get_status) r w) =
      Ok {| RelayController.st_light := RelayController.st_light before;
            RelayController.st_fan := RelayController.st_fan before;
            RelayController.st_motor := s;
            RelayController.st_garden := RelayController.st_garden before |} /\
    result ((RelayController.control_garden_light s ;; RelayController.get_status) r w) =
      Ok {| RelayController.st_light := RelayController.st_light before;
            RelayController.st_fan := RelayController.st_fan before;
            RelayController.st_motor := RelayController.st_motor before;
            RelayController.st_garden := s |}.
Proof.
  intros r w s. exists (reported (MICROPYTHON (env w)) r).
  split; [rewrite get_status_eq; reflexivity |].
  unfold bind.
  rewrite control_light_eq, control_fan_eq, control_motor_eq, control_garden_light_eq.
  rewrite !get_status_eq; simpl.
  destruct (MICROPYTHON (env w)), s; repeat split; reflexivity.
Qed.

(* ================================================================= *)
(** * The buzzer controller *)

Lemma alarm_on_eq b w :
  exists b',
    BuzzerController.alarm_on b w = mkOutcome (Ok tt) b' w [Print AlarmOnLine] /\
    BuzzerController.is_alarming b' = true /\
    drive (MICROPYTHON (env w)) b' = 1.
Proof. open_world w. destruct mp; eexists; repeat split. Qed.

Lemma alarm_off_eq b w :
  exists b',
    BuzzerController.alarm_off b w = mkOutcome (Ok tt) b' w [Print AlarmOffLine] /\
    BuzzerController.is_alarming b' = false /\
    drive (MICROPYTHON (env w)) b' = 0.
Proof. open_world w. destruct mp; eexists; repeat split. Qed.

Lemma buzzer_init_eq pin b w :
  exists b',
    BuzzerController.__init__ pin b w = mkOutcome (Ok tt) b' w [] /\
    BuzzerController.is_alarming b' = false /\
    drive (MICROPYTHON (env w)) b' = 0.
Proof. open_world w. destruct mp; eexists; repeat split. Qed.

Lemma latch_matches_on mp b :
  BuzzerController.is_alarming b = true -> drive mp b = 1 -> latch_matches_line mp b.
Proof. intros H1 H2. split; intros _; assumption. Qed.

Lemma latch_matches_off mp b :
  BuzzerController.is_alarming b = false -> drive mp b = 0 -> latch_matches_line mp b.
Proof. intros H1 H2. split; intros H; [rewrite H1 in H | rewrite H2 in H]; discriminate. Qed.

Lemma beep_eq d b w :
  exists b' out,
    BuzzerController.beep d b w = mkOutcome (Ok tt) b' w out /\
    BuzzerController.is_alarming b' = false /\
    drive (MICROPYTHON (env w)) b' = 0.
Proof. open_world w. destruct mp; do 2 eexists; repeat split. Qed.

(** One round of the loop of [beep_pattern] ends with the alarm off. *)
Lemma beep_round_eq count bt pt i b w :
  exists b' out,
    (BuzzerController.alarm_on ;; sleep bt ;; BuzzerController.alarm_off ;;
     when (i <? count - 1) (sleep pt)) b w = mkOutcome (Ok tt) b' w out /\
    BuzzerController.is_alarming b' = false /\
    drive (MICROPYTHON (env w)) b' = 0.
Proof.
  open_world w. destruct mp, (i <? count - 1) eqn:E;
    unfold bind, when; cbn; rewrite ?E; do 2 eexists; repeat split.
Qed.

Lemma beep_rounds_keep_latch count bt pt n : forall i b w,
  latch_matches_line (MICROPYTHON (env w)) b ->
  let o := for_range n i (fun i =>
             BuzzerController.alarm_on ;; sleep bt ;; BuzzerController.alarm_off ;;
             when (i <? count - 1) (sleep pt)) b w in
  result o = Ok tt /\ world o = w /\
  latch_matches_line (MICROPYTHON (env w)) (state o).
Proof.
  induction n as [| n IH]; intros i b w Hb; simpl.
  - repeat split; apply Hb.
  - destruct (beep_round_eq count bt pt i b w) as (b' & out & E & Ha & Hd).
    rewrite (bind_ok _ _ b w tt) by (rewrite E; reflexivity).
    rewrite E; cbn [result state world output].
    apply (IH (i + 1) b' w (latch_matches_off _ _ Ha Hd)).
Qed.

Lemma buzzer_call_keeps_latch op b w :
  latch_matches_line (MICROPYTHON (env w)) b ->
  world (buzzer_call op b w) = w /\
  latch_matches_line (MICROPYTHON (env w)) (state (buzzer_call op b w)).
Proof.
  intros Hb. destruct op as [| | d | count bt pt]; simpl.
  - destruct (alarm_on_eq b w) as (b' & E & Ha & Hd). rewrite E; simpl.
    split; [reflexivity | apply latch_matches_on; assumption].
  - destruct (alarm_off_eq b w) as (b' & E & Ha & Hd). rewrite E; simpl.
    split; [reflexivity | apply latch_matches_off; assumption].
  - destruct (beep_eq d b w) as (b' & out & E & Ha & Hd). rewrite E; simpl.
    split; [reflexivity | apply latch_matches_off; assumption].
  - unfold BuzzerController.beep_pattern, range.
    rewrite (bind_ok _ _ b w tt) by reflexivity.
    cbn [result state world output print emit].
    apply (beep_rounds_keep_latch count bt pt (Z.to_nat count) 0 b w Hb).
Qed.

(** C9.  The buzzer controller keeps its alarm latch consistent with its
    drive line: in every object obtained by [__init__] followed by any
    number of [alarm_on], [alarm_off], [beep] and [beep_pattern] calls,
    [is_alarming] is true iff the buzzer output is driven high (1). *)
Theorem buzzer_latch_matches_drive_line :
  forall (w : World) (b : BuzzerController.t),
    buzzer_reached w b ->
    (BuzzerController.is_alarming b = true <-> drive (MICROPYTHON (env w)) b = 1).
Proof.
  intros w b H. change (latch_matches_line (MICROPYTHON (env w)) b).
  induction H as [pin b0 w | op b w H IH].
  - destruct (buzzer_init_eq pin b0 w) as (b' & E & Ha & Hd). rewrite E; simpl.
    apply latch_matches_off; assumption.
  - destruct (buzzer_call_keeps_latch op b w IH) as [Hw Hl]. rewrite Hw. exact Hl.
Qed.

(** A buzzer built on the board and sounded: latch set, line high. *)
Lemma buzzer_latch_matches_drive_line_witness :
  buzzer_reached (world buzzer_sounded) (state buzzer_sounded) /\
  (BuzzerController.is_alarming (state buzzer_sounded) = true <->
   drive (MICROPYTHON (env (world buzzer_sounded))) (state buzzer_sounded) = 1).
Proof.
  assert (H : buzzer_reached (world buzzer_sounded) (state buzzer_sounded))
    by (unfold buzzer_sounded, buzzer_built; apply reached_call, reached_init).
  split; [exact H | exact (buzzer_latch_matches_drive_line _ _ H)].
Defined.

(* ================================================================= *)
(** * Start-up *)

Section Postconditions.
Context {S : Type}.

Lemma ensures_after {A B} (m : M S A) (k : A -> M S B) Q :
  total m -> (forall a, ensures (k a) Q) -> ensures (bind m k) Q.
Proof.
  intros Hm Hk s w. destruct (Hm s w) as [a Ha].
  rewrite (bind_ok _ _ _ _ _ Ha); simpl. apply Hk.
Qed.

Lemma ensures_kept {A B C D} (m : M S A) (k : A -> M S B)
    (f : S -> C) (g : World -> D) (Q : C -> D -> Prop) :
  ensures m (fun s w => Q (f s) (g w)) ->
  (forall a, keeps f (k a)) -> (forall a, wkeeps g (k a)) ->
  ensures (bind m k) (fun s w => Q (f s) (g w)).
Proof.
  intros Hm Hf Hg s w.
  rewrite (bind_keeps_rest f m k s w Hf), (bind_wkeeps_rest g m k s w Hg). apply Hm.
Qed.

End Postconditions.

Lemma wait_for_wifi_total n : total (HomeAutomationSystem.wait_for_wifi n).
Proof. induction n; simpl; frame. Qed.

Lemma wait_for_wifi_keeps {C} (f : HomeAutomationSystem.t -> C) n :
  keeps f (HomeAutomationSystem.wait_for_wifi n).
Proof. induction n; simpl; frame. Qed.

Lemma wait_for_wifi_env n : wkeeps env (HomeAutomationSystem.wait_for_wifi n).
Proof. induction n; simpl; frame. Qed.

Lemma wait_for_wifi_reads c n :
  wkeeps (fun w => reads w c) (HomeAutomationSystem.wait_for_wifi n).
Proof. induction n; simpl; frame. Qed.

#[export] Hint Resolve wait_for_wifi_total wait_for_wifi_keeps
  wait_for_wifi_env wait_for_wifi_reads : frame.

Lemma relay_init_ensures_off p1 p2 p3 p4 :
  ensures (HomeAutomationSystem.on_relay (RelayController.__init__ p1 p2 p3 p4))
    (fun s w => reported (MICROPYTHON (env w)) (HomeAutomationSystem.relay s) = all_off).
Proof.
  intros s w. unfold HomeAutomationSystem.on_relay, zoom.
  destruct (relay_init_eq p1 p2 p3 p4 (HomeAutomationSystem.relay s) w) as (r' & E & H).
  rewrite E; simpl. exact H.
Qed.

Lemma system_init_relays_off :
  ensures HomeAutomationSystem.__init__
    (fun s w => reported (MICROPYTHON (env w)) (HomeAutomationSystem.relay s) = all_off).
Proof.
  unfold HomeAutomationSystem.__init__.
  do 6 (apply ensures_after; [frame | intros ?]).
  apply (ensures_kept _ _ HomeAutomationSystem.relay env
           (fun r e => reported (MICROPYTHON e) r = all_off)).
  - apply relay_init_ensures_off.
  - frame.
  - frame.
Qed.

(* ================================================================= *)
(** * The sensors *)

Lemma is_gas_detected_eq g w :
  result (GasSensor.is_gas_detected g w) =
  Ok (sample_at w MQ2_ANALOG 0 >? GasSensor.threshold g).
Proof. destruct g. open_world w. destruct mp; reflexivity. Qed.

(** [get_status] reads the analog line twice: ['analog'] is the first
    reading, ['detected'] compares the second. *)
Lemma gas_get_status_fields g w :
  exists st,
    result (GasSensor.get_status g w) = Ok st /\
    GasSensor.analog st = sample_at w MQ2_ANALOG 0 /\
    GasSensor.detected st = (sample_at w MQ2_ANALOG 1 >? GasSensor.threshold g) /\
    GasSensor.digital st =
      (if MICROPYTHON (env w) then sample_at w MQ2_DIGITAL 0
       else if sample_at w MQ2_ANALOG 0 >? GasSensor.threshold g then 1 else 0).
Proof. destruct g. open_world w. destruct mp; eexists; repeat split. Qed.

Lemma is_dark_eq l w :
  result (LDRSensor.is_dark l w) = Ok (sample_at w LDR 0 =? 0).
Proof. destruct l. open_world w. destruct mp; reflexivity. Qed.

Lemma can_run_motor_eq x w :
  result (WaterLevelSensor.can_run_motor x w) =
  Ok (negb (sample_at w FLOAT_OVERHEAD 0 =? 1) &&
      negb (sample_at w FLOAT_UNDERGROUND 0 =? 0)).
Proof. destruct x. open_world w. destruct mp; reflexivity. Qed.

(** [get_tank_status] reads each float switch twice: the two tank
    fields are the first readings, ['can_run_motor'] is computed from
    the second. *)
Lemma get_tank_status_fields x w :
  exists st,
    result (WaterLevelSensor.get_tank_status x w) = Ok st /\
    WaterLevelSensor.overhead_full st = (sample_at w FLOAT_OVERHEAD 0 =? 1) /\
    WaterLevelSensor.underground_empty st = (sample_at w FLOAT_UNDERGROUND 0 =? 0) /\
    WaterLevelSensor.st_can_run_motor st =
      (negb (sample_at w FLOAT_OVERHEAD 1 =? 1) &&
       negb (sample_at w FLOAT_UNDERGROUND 1 =? 0)).
Proof. destruct x. open_world w. destruct mp; eexists; repeat split. Qed.

(** When the line shows the same value at both readings, the fields of
    one status agree. *)
Lemma gas_status_consistent_when_steady g w :
  sample_at w MQ2_ANALOG 1 = sample_at w MQ2_ANALOG 0 ->
  exists st,
    result (GasSensor.get_status g w) = Ok st /\
    GasSensor.detected st = (GasSensor.analog st >? GasSensor.threshold g).
Proof.
  intros H. destruct (gas_get_status_fields g w) as (st & E & Ha & Hd & _).
  exists st. split; [exact E |]. rewrite Hd, Ha, H. reflexivity.
Qed.

Lemma tank_status_consistent_when_steady x w :
  sample_at w FLOAT_OVERHEAD 1 = sample_at w FLOAT_OVERHEAD 0 ->
  sample_at w FLOAT_UNDERGROUND 1 = sample_at w FLOAT_UNDERGROUND 0 ->
  exists st,
    result (WaterLevelSensor.get_tank_status x w) = Ok st /\
    WaterLevelSensor.st_can_run_motor st =
      negb (WaterLevelSensor.overhead_full st) &&
      negb (WaterLevelSensor.underground_empty st).
Proof.
  intros H1 H2. destruct (get_tank_status_fields x w) as (st & E & Hf & He & Hc).
  exists st. split; [exact E |]. rewrite Hc, Hf, He, H1, H2. reflexivity.
Qed.

(* ================================================================= *)
(** * The three handlers *)

Lemma handle_gas_detection_result s w :
  exists st,
    result (HomeAutomationSystem.handle_gas_detection s w) = Ok st /\
    GasSensor.analog st = sample_at w MQ2_ANALOG 0 /\
    GasSensor.detected st =
      (sample_at w MQ2_ANALOG 1 >?
       GasSensor.threshold (HomeAutomationSystem.gas_sensor s)).
Proof.
  destruct s as [c g l x r b ov]. destruct g, b. open_world w.
  unfold sample_at. destruct mp; split_ifs; eexists; repeat split.
Qed.

Lemma handle_gas_detection_buzzer s w :
  HomeAutomationSystem.buzzer (state (HomeAutomationSystem.handle_gas_detection s w)) =
  if sample_at w MQ2_ANALOG 1 >? GasSensor.threshold (HomeAutomationSystem.gas_sensor s)
  then state (BuzzerController.alarm_on (HomeAutomationSystem.buzzer s) w)
  else if BuzzerController.is_alarming (HomeAutomationSystem.buzzer s)
       then state (BuzzerController.alarm_off (HomeAutomationSystem.buzzer s) w)
       else HomeAutomationSystem.buzzer s.
Proof.
  destruct s as [c g l x r b ov]. destruct g, b. open_world w.
  unfold sample_at. destruct mp; split_ifs; reflexivity.
Qed.

(** What the gas handler prints and sends, counted. *)
Lemma handle_gas_detection_alerts s w :
  let detected :=
    sample_at w MQ2_ANALOG 1 >? GasSensor.threshold (HomeAutomationSystem.gas_sensor s) in
  let was := BuzzerController.is_alarming (HomeAutomationSystem.buzzer s) in
  let out := output (HomeAutomationSystem.handle_gas_detection s w) in
  count is_gas_banner out = (if detected && negb was then 1 else 0)%nat /\
  count is_gas_normal out = (if negb detected && was then 1 else 0)%nat /\
  count is_gas_alert out =
    (if detected && HomeAutomationSystem.connected s && MICROPYTHON (env w)
     then 1 else 0)%nat /\
  (if detected || was then True else out = []).
Proof.
  destruct s as [c g l x r b ov]. destruct g, b. open_world w.
  unfold sample_at. destruct mp, c, is_alarming; split_ifs; repeat split.
Qed.

Lemma handle_garden_light_relay s w :
  HomeAutomationSystem.relay (state (HomeAutomationSystem.handle_garden_light s w)) =
  if HomeAutomationSystem.ov_garden (HomeAutomationSystem.manual_override s)
  then HomeAutomationSystem.relay s
  else driven (MICROPYTHON (env w)) RelayController.set_garden
         RelayController.set_garden_state (sample_at w LDR 0 =? 0)
         (HomeAutomationSystem.relay s).
Proof.
  destruct s as [c g l x r b ov]. destruct ov, l. open_world w.
  unfold sample_at. destruct mp, ov_garden; split_ifs; reflexivity.
Qed.

Lemma handle_water_tank_relay s w :
  HomeAutomationSystem.relay (state (HomeAutomationSystem.handle_water_tank s w)) =
  if HomeAutomationSystem.ov_motor (HomeAutomationSystem.manual_override s)
  then HomeAutomationSystem.relay s
  else driven (MICROPYTHON (env w)) RelayController.set_motor
         RelayController.set_motor_state
         (negb (sample_at w FLOAT_OVERHEAD 1 =? 1) &&
          negb (sample_at w FLOAT_UNDERGROUND 1 =? 0))
         (HomeAutomationSystem.relay s).
Proof.
  destruct s as [c g l x r b ov]. destruct ov, x. open_world w.
  unfold sample_at. destruct mp, ov_motor; split_ifs; reflexivity.
Qed.

(** What each handler leaves alone. *)
Lemma gas_handler_total : total HomeAutomationSystem.handle_gas_detection.
Proof. frame. Qed.
Lemma garden_handler_total : total HomeAutomationSystem.handle_garden_light.
Proof. frame. Qed.
Lemma water_handler_total : total HomeAutomationSystem.handle_water_tank.
Proof. frame. Qed.
Lemma report_total lc : total (HomeAutomationSystem.report lc).
Proof. frame. Qed.

Lemma gas_handler_keeps_relay :
  keeps HomeAutomationSystem.relay HomeAutomationSystem.handle_gas_detection.
Proof. frame. Qed.
Lemma gas_handler_keeps_override :
  keeps HomeAutomationSystem.manual_override HomeAutomationSystem.handle_gas_detection.
Proof. frame. Qed.
Lemma garden_handler_keeps_override :
  keeps HomeAutomationSystem.manual_override HomeAutomationSystem.handle_garden_light.
Proof. frame. Qed.
Lemma water_handler_keeps_override :
  keeps HomeAutomationSystem.manual_override HomeAutomationSystem.handle_water_tank.
Proof. frame. Qed.
Lemma garden_handler_keeps_buzzer :
  keeps HomeAutomationSystem.buzzer HomeAutomationSystem.handle_garden_light.
Proof. frame. Qed.
Lemma water_handler_keeps_buzzer :
  keeps HomeAutomationSystem.buzzer HomeAutomationSystem.handle_water_tank.
Proof. frame. Qed.
Lemma report_keeps_relay lc :
  keeps HomeAutomationSystem.relay (HomeAutomationSystem.report lc).
Proof. frame. Qed.
Lemma report_keeps_buzzer lc :
  keeps HomeAutomationSystem.buzzer (HomeAutomationSystem.report lc).
Proof. frame. Qed.

Lemma gas_handler_env : wkeeps env HomeAutomationSystem.handle_gas_detection.
Proof. frame. Qed.
Lemma garden_handler_env : wkeeps env HomeAutomationSystem.handle_garden_light.
Proof. frame. Qed.
Lemma water_handler_env : wkeeps env HomeAutomationSystem.handle_water_tank.
Proof. frame. Qed.
Lemma report_env lc : wkeeps env (HomeAutomationSystem.report lc).
Proof. frame. Qed.

Lemma gas_handler_reads c :
  Channel_eqb c MQ2_ANALOG = false -> Channel_eqb c MQ2_DIGITAL = false ->
  wkeeps (fun w => reads w c) HomeAutomationSystem.handle_gas_detection.
Proof. intros H1 H2. destruct c; try discriminate; frame. Qed.

Lemma garden_handler_reads c :
  Channel_eqb c LDR = false ->
  wkeeps (fun w => reads w c) HomeAutomationSystem.handle_garden_light.
Proof. intros H. destruct c; try discriminate; frame. Qed.

#[export] Hint Resolve gas_handler_total garden_handler_total water_handler_total
  report_total gas_handler_keeps_relay gas_handler_keeps_override
  garden_handler_keeps_override garden_handler_keeps_buzzer water_handler_keeps_buzzer
  report_keeps_relay report_keeps_buzzer
  gas_handler_env garden_handler_env water_handler_env report_env : frame.

(* ================================================================= *)
(** * One pass through the loop *)

Lemma loop_body_total lc : total (HomeAutomationSystem.loop_body lc).
Proof. unfold HomeAutomationSystem.loop_body. frame. Qed.

Lemma loop_body_env lc : wkeeps env (HomeAutomationSystem.loop_body lc).
Proof. unfold HomeAutomationSystem.loop_body. frame. Qed.

(** The alarm after a pass is the alarm the gas handler left. *)
Lemma loop_body_buzzer lc s w :
  HomeAutomationSystem.buzzer (state (HomeAutomationSystem.loop_body lc s w)) =
  HomeAutomationSystem.buzzer (state (HomeAutomationSystem.handle_gas_detection s w)).
Proof.
  unfold HomeAutomationSystem.loop_body.
  apply bind_keeps_rest. frame.
Qed.

(** The relays after a pass: the garden rule, then the motor rule, each
    skipped under its override, from the readings the pass started on. *)
Lemma loop_body_relay lc s w :
  HomeAutomationSystem.relay (state (HomeAutomationSystem.loop_body lc s w)) =
  let mp := MICROPYTHON (env w) in
  let ov := HomeAutomationSystem.manual_override s in
  let r1 :=
    if HomeAutomationSystem.ov_garden ov then HomeAutomationSystem.relay s
    else driven mp RelayController.set_garden RelayController.set_garden_state
           (sample_at w LDR 0 =? 0) (HomeAutomationSystem.relay s) in
  if HomeAutomationSystem.ov_motor ov then r1
  else driven mp RelayController.set_motor RelayController.set_motor_state
         (negb (sample_at w FLOAT_OVERHEAD 1 =? 1) &&
          negb (sample_at w FLOAT_UNDERGROUND 1 =? 0)) r1.
Proof.
  unfold HomeAutomationSystem.loop_body.
  destruct (gas_handler_total s w) as [a1 H1].
  rewrite (bind_state _ _ _ _ _ H1).
  set (o1 := HomeAutomationSystem.handle_gas_detection s w) in *.
  destruct (garden_handler_total (state o1) (world o1)) as [a2 H2].
  rewrite (bind_state _ _ _ _ _ H2).
  set (o2 := HomeAutomationSystem.handle_garden_light (state o1) (world o1)) in *.
  rewrite bind_keeps_rest by frame.
  rewrite handle_water_tank_relay.
  assert (E1 : env (world o1) = env w) by apply gas_handler_env.
  assert (E2 : env (world o2) = env w)
    by (unfold o2; rewrite garden_handler_env; exact E1).
  assert (O2 : HomeAutomationSystem.manual_override (state o2)
               = HomeAutomationSystem.manual_override s)
    by (unfold o2; rewrite garden_handler_keeps_override;
        apply gas_handler_keeps_override).
  assert (R2 : forall c, Channel_eqb c MQ2_ANALOG = false ->
                 Channel_eqb c MQ2_DIGITAL = false -> Channel_eqb c LDR = false ->
                 forall k, sample_at (world o2) c k = sample_at w c k).
  { intros c Ha Hd Hl k. apply sample_at_same; [exact E2 |].
    unfold o2. rewrite (garden_handler_reads c Hl).
    apply (gas_handler_reads c Ha Hd). }
  rewrite O2, E2, !R2 by reflexivity.
  subst o2. rewrite !handle_garden_light_relay.
  subst o1. rewrite !gas_handler_keeps_override, !gas_handler_keeps_relay, !E1.
  rewrite !(sample_at_same w _ LDR 0 E1)
    by (apply (gas_handler_reads LDR); reflexivity).
  reflexivity.
Qed.

Lemma motor_on_reported s w :
  motor_on s w =
  RelayController.st_motor (reported (MICROPYTHON (env w)) (HomeAutomationSystem.relay s)).
Proof. unfold motor_on. rewrite get_status_eq. reflexivity. Qed.

Lemma garden_on_reported s w :
  garden_on s w =
  RelayController.st_garden (reported (MICROPYTHON (env w)) (HomeAutomationSystem.relay s)).
Proof. unfold garden_on. rewrite get_status_eq. reflexivity. Qed.

Lemma reported_motor_driven mp b r :
  RelayController.st_motor
    (reported mp (driven mp RelayController.set_motor RelayController.set_motor_state b r))
  = b.
Proof. destruct mp, b; reflexivity. Qed.

Lemma reported_garden_driven mp b r :
  RelayController.st_garden
    (reported mp (driven mp RelayController.set_garden RelayController.set_garden_state b r))
  = b.
Proof. destruct mp, b; reflexivity. Qed.

(** The garden command leaves the motor's pin and level alone, and the
    motor command the garden's. *)
Lemma garden_driven_motor mp b r :
  let r' := driven mp RelayController.set_garden RelayController.set_garden_state b r in
  RelayController.motor r' = RelayController.motor r /\
  RelayController.motor_state r' = RelayController.motor_state r.
Proof. destruct mp, b; split; reflexivity. Qed.

Lemma motor_driven_garden mp b r :
  let r' := driven mp RelayController.set_motor RelayController.set_motor_state b r in
  RelayController.garden r' = RelayController.garden r /\
  RelayController.garden_state r' = RelayController.garden_state r.
Proof. destruct mp, b; split; reflexivity. Qed.

(** Under an override its handler prints no relay line. *)
Lemma water_handler_quiet :
  silent_under
    (fun s => HomeAutomationSystem.ov_motor (HomeAutomationSystem.manual_override s) = true)
    is_motor_line HomeAutomationSystem.handle_water_tank.
Proof.
  intros s w H. destruct s as [c g l x r b ov]. destruct ov, x. open_world w.
  simpl in H. subst. destruct mp; reflexivity.
Qed.

Lemma garden_handler_quiet :
  silent_under
    (fun s => HomeAutomationSystem.ov_garden (HomeAutomationSystem.manual_override s) = true)
    is_garden_line HomeAutomationSystem.handle_garden_light.
Proof.
  intros s w H. destruct s as [c g l x r b ov]. destruct ov, l. open_world w.
  simpl in H. subst. destruct mp; reflexivity.
Qed.

Lemma loop_body_quiet_motor lc :
  silent_under
    (fun s => HomeAutomationSystem.ov_motor (HomeAutomationSystem.manual_override s) = true)
    is_motor_line (HomeAutomationSystem.loop_body lc).
Proof.
  unfold HomeAutomationSystem.loop_body.
  apply silent_under_bind;
    [apply silent_everywhere; frame
    | intros s w H; rewrite gas_handler_keeps_override; exact H | intros _].
  apply silent_under_bind;
    [apply silent_everywhere; frame
    | intros s w H; rewrite garden_handler_keeps_override; exact H | intros _].
  apply silent_under_bind;
    [apply water_handler_quiet
    | intros s w H; rewrite water_handler_keeps_override; exact H | intros _].
  apply silent_everywhere. frame.
Qed.

Lemma loop_body_quiet_garden lc :
  silent_under
    (fun s => HomeAutomationSystem.ov_garden (HomeAutomationSystem.manual_override s) = true)
    is_garden_line (HomeAutomationSystem.loop_body lc).
Proof.
  unfold HomeAutomationSystem.loop_body.
  apply silent_under_bind;
    [apply silent_everywhere; frame
    | intros s w H; rewrite gas_handler_keeps_override; exact H | intros _].
  apply silent_under_bind;
    [apply garden_handler_quiet
    | intros s w H; rewrite garden_handler_keeps_override; exact H | intros _].
  apply silent_everywhere. frame.
Qed.

(* ================================================================= *)
(** * Shutdown *)

Lemma loop_total n : forall lc, total (HomeAutomationSystem.loop n lc).
Proof.
  induction n as [| n IH]; intros lc; simpl.
  - apply total_ret.
  - apply total_bind; [apply loop_body_total | exact IH].
Qed.

Lemma cleanup_ensures_off :
  ensures HomeAutomationSystem.cleanup
    (fun s w =>
       reported (MICROPYTHON (env w)) (HomeAutomationSystem.relay s) = all_off /\
       drive (MICROPYTHON (env w)) (HomeAutomationSystem.buzzer s) = 0 /\
       BuzzerController.is_alarming (HomeAutomationSystem.buzzer s) = false).
Proof.
  intros s w. destruct s as [c g l x r b ov]. open_world w.
  destruct mp; cbn; repeat split.
Qed.

Lemma run_ensures_off n :
  ensures (HomeAutomationSystem.run n)
    (fun s w =>
       reported (MICROPYTHON (env w)) (HomeAutomationSystem.relay s) = all_off /\
       drive (MICROPYTHON (env w)) (HomeAutomationSystem.buzzer s) = 0 /\
       BuzzerController.is_alarming (HomeAutomationSystem.buzzer s) = false).
Proof.
  unfold HomeAutomationSystem.run.
  apply ensures_after; [frame | intros _].
  apply ensures_after; [apply loop_total | intros _].
  apply ensures_after; [frame | intros _].
  apply cleanup_ensures_off.
Qed.

(** C7.  The shutdown sequence, from any relay state and alarm state,
    leaves all four appliances off and the buzzer off with
    [is_alarming] false, called directly or at the end of [run] after
    any number of passes; and the same all-off operation has the relay
    controller start with every appliance off, alone and within the
    system's own start-up. *)
Theorem shutdown_and_startup_all_off :
  (forall (s : HomeAutomationSystem.t) (w : World),
     let o := HomeAutomationSystem.cleanup s w in
     result o = Ok tt /\
     result (RelayController.get_status (HomeAutomationSystem.relay (state o)) (world o))
       = Ok all_off /\
     drive (MICROPYTHON (env (world o))) (HomeAutomationSystem.buzzer (state o)) = 0 /\
     BuzzerController.is_alarming (HomeAutomationSystem.buzzer (state o)) = false) /\
  (forall (passes : nat) (s : HomeAutomationSystem.t) (w : World),
     let o := HomeAutomationSystem.run passes s w in
     result (RelayController.get_status (HomeAutomationSystem.relay (state o)) (world o))
       = Ok all_off /\
     drive (MICROPYTHON (env (world o))) (HomeAutomationSystem.buzzer (state o)) = 0 /\
     BuzzerController.is_alarming (HomeAutomationSystem.buzzer (state o)) = false) /\
  (forall (r : RelayController.t) (w : World),
     result ((RelayController.turn_off_all ;; RelayController.get_status) r w)
       = Ok all_off) /\
  (forall (p1 p2 p3 p4 : Z) (r : RelayController.t) (w : World),
     result ((RelayController.__init__ p1 p2 p3 p4 ;; RelayController.get_status) r w)
       = Ok all_off) /\
  (forall (s : HomeAutomationSystem.t) (w : World),
     let o := HomeAutomationSystem.__init__ s w in
     result (RelayController.get_status (HomeAutomationSystem.relay (state o)) (world o))
       = Ok all_off).
Proof.
  split; [| split; [| split; [| split]]].
  - intros s w o. destruct (cleanup_ensures_off s w) as (H1 & H2 & H3).
    rewrite get_status_eq; simpl. fold o in H1, H2, H3. rewrite H1.
    repeat split; try assumption.
    unfold o. destruct s as [c g l x r b ov]. open_world w. destruct mp; reflexivity.
  - intros n s w o. destruct (run_ensures_off n s w) as (H1 & H2 & H3).
    rewrite get_status_eq; simpl. fold o in H1, H2, H3. rewrite H1.
    repeat split; assumption.
  - intros r w. destruct (turn_off_all_eq r w) as (r' & E & H).
    unfold bind. rewrite E, get_status_eq; simpl. rewrite H. reflexivity.
  - intros p1 p2 p3 p4 r w. destruct (relay_init_eq p1 p2 p3 p4 r w) as (r' & E & H).
    unfold bind. rewrite E, get_status_eq; simpl. rewrite H. reflexivity.
  - intros s w o. rewrite get_status_eq; simpl.
    unfold o. rewrite (system_init_relays_off s w). reflexivity.
Qed.

(* ================================================================= *)
(** * The motor rule *)

(** C3.  [can_run_motor] answers "not full and not empty" of the
    readings it takes.  With the motor override off, every pass through
    the loop leaves the motor on iff the overhead reading is not full
    (not 1) and the underground reading is not empty (not 0), the
    readings being those [can_run_motor] takes inside
    [get_tank_status]; so a full overhead tank alone, an empty
    underground tank alone, or both, leave it off.  With the motor
    override on, the pass leaves the motor's pin and level as they were
    and prints no motor line. *)
Theorem motor_rule_each_pass :
  forall (loop_count : Z) (s : HomeAutomationSystem.t) (w : World),
    let o := HomeAutomationSystem.loop_body loop_count s w in
    let full := sample_at w FLOAT_OVERHEAD 1 =? 1 in
    let empty := sample_at w FLOAT_UNDERGROUND 1 =? 0 in
    result (WaterLevelSensor.can_run_motor (HomeAutomationSystem.water_sensor s) w) =
      Ok (negb (sample_at w FLOAT_OVERHEAD 0 =? 1) &&
          negb (sample_at w FLOAT_UNDERGROUND 0 =? 0)) /\
    (HomeAutomationSystem.ov_motor (HomeAutomationSystem.manual_override s) = false ->
       motor_on (state o) (world o) = negb full && negb empty /\
       (full = true -> motor_on (state o) (world o) = false) /\
       (empty = true -> motor_on (state o) (world o) = false)) /\
    (HomeAutomationSystem.ov_motor (HomeAutomationSystem.manual_override s) = true ->
       RelayController.motor (HomeAutomationSystem.relay (state o)) =
         RelayController.motor (HomeAutomationSystem.relay s) /\
       RelayController.motor_state (HomeAutomationSystem.relay (state o)) =
         RelayController.motor_state (HomeAutomationSystem.relay s) /\
       existsb is_motor_line (output o) = false).
Proof.
  intros lc s w o full empty. split; [apply can_run_motor_eq | split].
  - intros Hov.
    assert (E : motor_on (state o) (world o) = negb full && negb empty).
    { rewrite motor_on_reported. unfold o.
      rewrite loop_body_env, loop_body_relay; simpl. rewrite Hov.
      apply reported_motor_driven. }
    rewrite E. split; [reflexivity | split; intros ->; simpl].
    + reflexivity.
    + apply andb_false_r.
  - intros Hov. unfold o. rewrite loop_body_relay; simpl. rewrite Hov.
    split; [| split].
    + destruct (HomeAutomationSystem.ov_garden _); [reflexivity |].
      apply garden_driven_motor.
    + destruct (HomeAutomationSystem.ov_garden _); [reflexivity |].
      apply garden_driven_motor.
    + apply loop_body_quiet_motor. exact Hov.
Qed.

(** A pass on the wavering board, override off: the motor goes on, as
    the second readings (not full, water underground) say. *)
Lemma motor_rule_each_pass_witness :
  HomeAutomationSystem.ov_motor
    (HomeAutomationSystem.manual_override (state (started (wavering false)))) = false /\
  motor_on
    (state (HomeAutomationSystem.loop_body 0 (state (started (wavering false)))
              (world (started (wavering false)))))
    (world (HomeAutomationSystem.loop_body 0 (state (started (wavering false)))
              (world (started (wavering false))))) = true.
Proof.
  split; [reflexivity |].
  destruct (motor_rule_each_pass 0 (state (started (wavering false)))
              (world (started (wavering false)))) as (_ & H & _).
  destruct (H eq_refl) as (E & _). rewrite E. reflexivity.
Defined.

(* ================================================================= *)
(** * The garden light rule *)

(** C5.  [is_dark] answers whether the LDR line reads low (0).  With the
    garden override off, every pass through the loop leaves the garden
    light equal to that answer for the reading the pass takes; with the
    garden override on, the pass leaves the garden relay's pin and
    level as they were and prints no garden line. *)
Theorem garden_rule_each_pass :
  forall (loop_count : Z) (s : HomeAutomationSystem.t) (w : World),
    let o := HomeAutomationSystem.loop_body loop_count s w in
    result (LDRSensor.is_dark (HomeAutomationSystem.ldr_sensor s) w) =
      Ok (sample_at w LDR 0 =? 0) /\
    (HomeAutomationSystem.ov_garden (HomeAutomationSystem.manual_override s) = false ->
       garden_on (state o) (world o) = (sample_at w LDR 0 =? 0)) /\
    (HomeAutomationSystem.ov_garden (HomeAutomationSystem.manual_override s) = true ->
       RelayController.garden (HomeAutomationSystem.relay (state o)) =
         RelayController.garden (HomeAutomationSystem.relay s) /\
       RelayController.garden_state (HomeAutomationSystem.relay (state o)) =
         RelayController.garden_state (HomeAutomationSystem.relay s) /\
       existsb is_garden_line (output o) = false).
Proof.
  intros lc s w o. split; [apply is_dark_eq | split].
  - intros Hov. rewrite garden_on_reported. unfold o.
    rewrite loop_body_env, loop_body_relay; simpl. rewrite Hov.
    destruct (HomeAutomationSystem.ov_motor _).
    + apply reported_garden_driven.
    + destruct (MICROPYTHON (env w)),
        (negb (sample_at w FLOAT_OVERHEAD 1 =? 1) &&
         negb (sample_at w FLOAT_UNDERGROUND 1 =? 0)),
        (sample_at w LDR 0 =? 0); reflexivity.
  - intros Hov. unfold o. rewrite loop_body_relay; simpl. rewrite Hov.
    split; [| split].
    + destruct (HomeAutomationSystem.ov_motor _); [reflexivity |].
      apply motor_driven_garden.
    + destruct (HomeAutomationSystem.ov_motor _); [reflexivity |].
      apply motor_driven_garden.
    + apply loop_body_quiet_garden. exact Hov.
Qed.

(** A pass on the wavering board, override off: daylight, the garden
    light stays off. *)
Lemma garden_rule_each_pass_witness :
  HomeAutomationSystem.ov_garden
    (HomeAutomationSystem.manual_override (state (started (wavering false)))) = false /\
  garden_on
    (state (HomeAutomationSystem.loop_body 0 (state (started (wavering false)))
              (world (started (wavering false)))))
    (world (HomeAutomationSystem.loop_body 0 (state (started (wavering false)))
              (world (started (wavering false))))) = false.
Proof.
  split; [reflexivity |].
  destruct (garden_rule_each_pass 0 (state (started (wavering false)))
              (world (started (wavering false)))) as (_ & H & _).
  rewrite (H eq_refl). reflexivity.
Defined.

(* ================================================================= *)
(** * The motor interlock and the manual override *)

Lemma reported_motor_garden mp b r :
  RelayController.st_motor
    (reported mp (driven mp RelayController.set_garden RelayController.set_garden_state b r))
  = RelayController.st_motor (reported mp r).
Proof. destruct mp, b; reflexivity. Qed.

(** C2, as the claim states it, fails: on a board whose overhead float
    switch reads full at every reading, the operator sets the motor
    override and switches the motor on; the state is reachable, and the
    pass through the loop that follows leaves the motor on. *)
Lemma motor_forced_on_with_tank_full :
  reachable (world motor_forced_pass) (state motor_forced_pass) /\
  (forall k, samples (env (world motor_forced_pass)) FLOAT_OVERHEAD k = 1) /\
  motor_on (state motor_forced_pass) (world motor_forced_pass) = true.
Proof.
  split; [| split].
  - unfold motor_forced_pass, motor_forced, motor_taken_over, started.
    repeat first [apply reach_pass | apply reach_command | apply reach_init].
  - intros k. vm_compute. destruct k; reflexivity.
  - vm_compute. reflexivity.
Qed.

(** C2, amended.  In every reachable state, a pass through the loop run
    with the motor override off leaves the motor on only if the
    readings its motor decision takes show the overhead tank not full
    and the underground tank not empty; run with the motor override on,
    the pass leaves the motor as it found it. *)
Theorem motor_interlock_unless_overridden :
  forall (w : World) (s : HomeAutomationSystem.t) (loop_count : Z),
    reachable w s ->
    let o := HomeAutomationSystem.loop_body loop_count s w in
    (HomeAutomationSystem.ov_motor (HomeAutomationSystem.manual_override s) = false ->
       motor_on (state o) (world o) = true ->
       sample_at w FLOAT_OVERHEAD 1 <> 1 /\ sample_at w FLOAT_UNDERGROUND 1 <> 0) /\
    (HomeAutomationSystem.ov_motor (HomeAutomationSystem.manual_override s) = true ->
       motor_on (state o) (world o) = motor_on s w).
Proof.
  intros w s lc _ o. split; intros Hov.
  - rewrite motor_on_reported. unfold o.
    rewrite loop_body_env, loop_body_relay; simpl. rewrite Hov.
    rewrite reported_motor_driven. intros H.
    apply andb_prop in H. destruct H as [H1 H2].
    apply negb_true_iff in H1, H2. apply Z.eqb_neq in H1, H2. split; assumption.
  - rewrite !motor_on_reported. unfold o.
    rewrite loop_body_env, loop_body_relay; simpl. rewrite Hov.
    destruct (HomeAutomationSystem.ov_garden _); [reflexivity |].
    apply reported_motor_garden.
Qed.

(** After start-up on the wavering board (override off) the pass puts
    the motor on; its deciding readings are not full, not empty. *)
Lemma motor_interlock_unless_overridden_witness :
  reachable (world (started (wavering false))) (state (started (wavering false))) /\
  sample_at (world (started (wavering false))) FLOAT_OVERHEAD 1 <> 1 /\
  sample_at (world (started (wavering false))) FLOAT_UNDERGROUND 1 <> 0.
Proof.
  split; [apply reach_init |].
  apply (motor_interlock_unless_overridden
           (world (started (wavering false))) (state (started (wavering false))) 0).
  - apply reach_init.
  - reflexivity.
  - vm_compute. reflexivity.
Defined.

(* ================================================================= *)
(** * Telemetry *)



(** The buzzer after [alarm_on] or [alarm_off] depends on the world
    through the platform alone. *)
Lemma alarm_state_platform b w w' :
  MICROPYTHON (env w') = MICROPYTHON (env w) ->
  state (BuzzerController.alarm_on b w') = state (BuzzerController.alarm_on b w) /\
  state (BuzzerController.alarm_off b w') = state (BuzzerController.alarm_off b w).
Proof.
  open_world w. open_world w'. simpl. intros ->. destruct mp; split; reflexivity.
Qed.


(* ================================================================= *)
(** * Gas detection *)

Lemma sample_at_feed c v w : sample_at (feed c 0 v w) c 0 = v.
Proof.
  unfold sample_at, feed; simpl.
  replace (Channel_eqb c c) with true by (destruct c; reflexivity).
  rewrite Nat.eqb_refl. reflexivity.
Qed.

Lemma gas_handler_alarming s w :
  BuzzerController.is_alarming
    (HomeAutomationSystem.buzzer (state (HomeAutomationSystem.handle_gas_detection s w))) =
  (sample_at w MQ2_ANALOG 1 >? GasSensor.threshold (HomeAutomationSystem.gas_sensor s)).
Proof.
  rewrite handle_gas_detection_buzzer.
  destruct (sample_at w MQ2_ANALOG 1 >? _).
  - destruct (alarm_on_eq (HomeAutomationSystem.buzzer s) w) as (b' & E & Ha & _).
    rewrite E. exact Ha.
  - destruct (BuzzerController.is_alarming (HomeAutomationSystem.buzzer s)) eqn:Hb.
    + destruct (alarm_off_eq (HomeAutomationSystem.buzzer s) w) as (b' & E & Ha & _).
      rewrite E. exact Ha.
    + exact Hb.
Qed.

(** C4.  Gas is classified as detected iff the analog reading is
    strictly greater than the configured threshold: [is_gas_detected]
    returns the comparison [reading > threshold] of the reading it
    takes, so a reading equal to the threshold is normal; and the alarm
    decision of the gas handler is that comparison (on the reading
    [is_gas_detected] takes inside [get_status]), the same whatever the
    digital pin shows. *)
Theorem gas_detected_iff_analog_above_threshold :
  (forall (g : GasSensor.t) (w : World),
     result (GasSensor.is_gas_detected g w) =
       Ok (sample_at w MQ2_ANALOG 0 >? GasSensor.threshold g)) /\
  (forall (g : GasSensor.t) (w : World),
     result (GasSensor.is_gas_detected g (feed MQ2_ANALOG 0 (GasSensor.threshold g) w)) =
       Ok false) /\
  (forall (s : HomeAutomationSystem.t) (w : World),
     BuzzerController.is_alarming
       (HomeAutomationSystem.buzzer
          (state (HomeAutomationSystem.handle_gas_detection s w))) =
     (sample_at w MQ2_ANALOG 1 >?
      GasSensor.threshold (HomeAutomationSystem.gas_sensor s))) /\
  (forall (s : HomeAutomationSystem.t) (w : World) (k : nat) (d : Z),
     HomeAutomationSystem.buzzer
       (state (HomeAutomationSystem.handle_gas_detection s (feed MQ2_DIGITAL k d w))) =
     HomeAutomationSystem.buzzer
       (state (HomeAutomationSystem.handle_gas_detection s w))).
Proof.
  split; [| split; [| split]].
  - apply is_gas_detected_eq.
  - intros g w. rewrite is_gas_detected_eq, sample_at_feed.
    rewrite Z.gtb_ltb, Z.ltb_irrefl. reflexivity.
  - apply gas_handler_alarming.
  - intros s w k d. rewrite !handle_gas_detection_buzzer.
    destruct (alarm_state_platform (HomeAutomationSystem.buzzer s) w
                (feed MQ2_DIGITAL k d w) eq_refl) as [E1 E2].
    rewrite E1, E2. reflexivity.
Qed.

(** C6, at a failing input.  On the wavering sensor (analog line 300,
    then 500; threshold 400) one [get_status] call reports analog 300
    together with detected true, in simulation and on the board alike;
    and with the overhead float switch reading full, then not full, one
    [get_tank_status] call reports overhead_full true together with
    can_run_motor true. *)
Theorem status_fields_mix_two_readings :
  forall mp : bool,
    let w := boot (wavering mp) in
    let g := state (GasSensor.__init__ config.PIN_MQ2_ANALOG config.PIN_MQ2_DIGITAL
                      config.GAS_THRESHOLD GasSensor.blank w) in
    let x := state (WaterLevelSensor.__init__ config.PIN_FLOAT_OVERHEAD
                      config.PIN_FLOAT_UNDERGROUND WaterLevelSensor.blank w) in
    result (GasSensor.get_status g w) =
      Ok {| GasSensor.analog := 300;
            GasSensor.digital := 0;
            GasSensor.detected := true;
            GasSensor.st_warmup_complete := false;
            GasSensor.status_text := "GAS DETECTED" |} /\
    result (WaterLevelSensor.get_tank_status x w) =
      Ok {| WaterLevelSensor.overhead_full := true;
            WaterLevelSensor.underground_empty := false;
            WaterLevelSensor.st_can_run_motor := true;
            WaterLevelSensor.overhead_status := "Full";
            WaterLevelSensor.underground_status := "Has Water";
            WaterLevelSensor.motor_status := "Can Run" |}.
Proof. intros [|]; split; vm_compute; reflexivity. Qed.

(* ================================================================= *)
(** * The gas alarm latch *)

Lemma bind_count_rest {S A B} p (m : M S A) (k : A -> M S B) s w :
  (forall a, silent p (k a)) ->
  count p (output (bind m k s w)) = count p (output (m s w)).
Proof.
  intros Hk. unfold bind. destruct (m s w) as [[a | e] s1 w1 o1]; simpl; [| reflexivity].
  specialize (Hk a s1 w1). destruct (k a s1 w1); simpl in *.
  rewrite count_app, (count_silent _ _ Hk). apply Nat.add_0_r.
Qed.

(** What a pass prints and sends about gas is what its gas handler does. *)
Lemma loop_body_gas_output lc s w :
  let out := output (HomeAutomationSystem.loop_body lc s w) in
  let out_gas := output (HomeAutomationSystem.handle_gas_detection s w) in
  count is_gas_banner out = count is_gas_banner out_gas /\
  count is_gas_normal out = count is_gas_normal out_gas /\
  count is_gas_alert out = count is_gas_alert out_gas.
Proof.
  unfold HomeAutomationSystem.loop_body. repeat split; apply bind_count_rest; frame.
Qed.

(** The latch, pass by pass: the buzzer follows the comparison, the
    banner is printed on the rising edge only and the all-clear line on
    the falling edge only; the [gas_alert] request goes out on every
    pass that detects gas while connected on the board. *)
Lemma gas_latch_each_pass lc s w :
  let detected :=
    sample_at w MQ2_ANALOG 1 >? GasSensor.threshold (HomeAutomationSystem.gas_sensor s) in
  let was := BuzzerController.is_alarming (HomeAutomationSystem.buzzer s) in
  let o := HomeAutomationSystem.loop_body lc s w in
  let b := HomeAutomationSystem.buzzer (state o) in
  BuzzerController.is_alarming b = detected /\
  drive (MICROPYTHON (env w)) b =
    (if detected then 1
     else if was then 0 else drive (MICROPYTHON (env w)) (HomeAutomationSystem.buzzer s)) /\
  (if detected || was then True else b = HomeAutomationSystem.buzzer s) /\
  count is_gas_banner (output o) = (if detected && negb was then 1 else 0)%nat /\
  count is_gas_normal (output o) = (if negb detected && was then 1 else 0)%nat /\
  count is_gas_alert (output o) =
    (if detected && HomeAutomationSystem.connected s && MICROPYTHON (env w)
     then 1 else 0)%nat.
Proof.
  intros detected was o b.
  destruct (loop_body_gas_output lc s w) as (C1 & C2 & C3).
  destruct (handle_gas_detection_alerts s w) as (A1 & A2 & A3 & _).
  fold detected was in A1, A2, A3.
  unfold b, o. rewrite loop_body_buzzer, C1, C2, C3, A1, A2, A3.
  rewrite gas_handler_alarming, handle_gas_detection_buzzer. fold detected was.
  repeat split.
  - destruct detected.
    + destruct (alarm_on_eq (HomeAutomationSystem.buzzer s) w) as (b' & E & _ & Hd).
      rewrite E. exact Hd.
    + destruct was; [| reflexivity].
      destruct (alarm_off_eq (HomeAutomationSystem.buzzer s) w) as (b' & E & _ & Hd).
      rewrite E. exact Hd.
  - destruct detected, was; simpl; trivial.
Qed.

(** The first pass on that board, line by line: the banner, the buzzer,
    the two requests to Blynk, the garden light and the motor on. *)
Example first_pass_on_leak :
  output (HomeAutomationSystem.loop_body 0 (state (started leak_online))
            (world (started leak_online))) =
  [ Print (GasLeakBanner 450 400);
    Print AlarmOnLine;
    HttpGet "http://blynk.cloud/external/api/update?token=YOUR_BLYNK_AUTH_TOKEN&v10=450";
    HttpGet "http://blynk.cloud/external/api/logEvent?token=YOUR_BLYNK_AUTH_TOKEN&code=gas_alert";
    Print (GardenLine true);
    Print (MotorLine true);
    Sleep (1 # 1) ].
Proof. vm_compute. reflexivity. Qed.

(** C1, at a failing input.  On the board with WiFi up and gas steadily
    at 450 (threshold 400), the first pass after start-up is the rising
    edge: one banner, one [gas_alert] request, the latch set.  The
    second pass finds the latch set and the gas still above the
    threshold; it prints no banner, and sends the [gas_alert] request
    again. *)
Theorem gas_alert_repeats_while_alarming :
  let o0 := started leak_online in
  let o1 := HomeAutomationSystem.loop_body 0 (state o0) (world o0) in
  let o2 := HomeAutomationSystem.loop_body 1 (state o1) (world o1) in
  HomeAutomationSystem.connected (state o0) = true /\
  BuzzerController.is_alarming (HomeAutomationSystem.buzzer (state o0)) = false /\
  count is_gas_banner (output o1) = 1%nat /\
  count is_gas_alert (output o1) = 1%nat /\
  BuzzerController.is_alarming (HomeAutomationSystem.buzzer (state o1)) = true /\
  sample_at (world o1) MQ2_ANALOG 1 = 450 /\
  count is_gas_banner (output o2) = 0%nat /\
  count is_gas_alert (output o2) = 1%nat.
Proof. repeat split; vm_compute; reflexivity. Qed.

(* ================================================================= *)
(** * Counting through a method *)

Lemma bind_count {S A B} p (m : M S A) (k : A -> M S B) s w a :
  result (m s w) = Ok a ->
  count p (output (bind m k s w)) =
  (count p (output (m s w)) +
   count p (output (k a (state (m s w)) (world (m s w)))))%nat.
Proof. intros H. rewrite (bind_ok _ _ _ _ _ H); simpl. apply count_app. Qed.

Lemma bind_result_ok {S A B} (m : M S A) (k : A -> M S B) s w a :
  result (m s w) = Ok a ->
  result (bind m k s w) = result (k a (state (m s w)) (world (m s w))).
Proof. intros H. rewrite (bind_ok _ _ _ _ _ H). reflexivity. Qed.

Lemma bind_world_ok {S A B} (m : M S A) (k : A -> M S B) s w a :
  result (m s w) = Ok a ->
  world (bind m k s w) = world (k a (state (m s w)) (world (m s w))).
Proof. intros H. rewrite (bind_ok _ _ _ _ _ H). reflexivity. Qed.

Lemma silent_count {S A} p (m : M S A) s w :
  silent p m -> count p (output (m s w)) = O.
Proof. intros H. apply count_silent, H. Qed.

(* ================================================================= *)
(** * The gas sensor, beyond detection *)

(** The waiting loop of [warmup]: [n] one-second sleeps, nothing else. *)
Lemma warmup_loop duration n : forall (i : Z) (g : GasSensor.t) (w : World),
  exists out,
    for_range n i (fun i =>
      print (WarmupProgressLine (i + 1) duration) ;; sleep (1 # 1)) g w =
    mkOutcome (Ok tt) g w out /\
    count is_sleep out = n.
Proof.
  induction n as [| n IH]; intros i g w; simpl.
  - exists []. split; reflexivity.
  - destruct (IH (i + 1) g w) as (out & E & C).
    exists ([Print (WarmupProgressLine (i + 1) duration); Sleep (1 # 1)] ++ out).
    split.
    + assert (R : (print (WarmupProgressLine (i + 1) duration) ;; sleep (1 # 1)) g w =
                  mkOutcome (Ok tt) g w
                    [Print (WarmupProgressLine (i + 1) duration); Sleep (1 # 1)])
        by reflexivity.
      rewrite (bind_ok _ _ g w tt) by (rewrite R; reflexivity).
      rewrite R; cbn [state world output result]. rewrite E. reflexivity.
    + rewrite count_app, C. reflexivity.
Qed.


(** X2.  One [get_status] call of the gas sensor takes exactly two
    analog readings and, on the board only, one reading of the digital
    pin; in simulation its ['digital'] is computed from the stored
    first reading, so there it is 1 iff the reported ['analog'] exceeds
    the threshold.  The call leaves threshold, baseline and warm-up
    flag as they were. *)
Theorem gas_status_footprint :
  forall (g : GasSensor.t) (w : World),
    let o := GasSensor.get_status g w in
    let mp := MICROPYTHON (env w) in
    exists st,
      result o = Ok st /\
      GasSensor.digital st =
        (if mp then sample_at w MQ2_DIGITAL 0
         else if GasSensor.analog st >? GasSensor.threshold g then 1 else 0) /\
      GasSensor.st_warmup_complete st = GasSensor.warmup_complete g /\
      reads (world o) MQ2_ANALOG = S (S (reads w MQ2_ANALOG)) /\
      reads (world o) MQ2_DIGITAL =
        (if mp then S (reads w MQ2_DIGITAL) else reads w MQ2_DIGITAL) /\
      GasSensor.threshold (state o) = GasSensor.threshold g /\
      GasSensor.calibration_value (state o) = GasSensor.calibration_value g /\
      GasSensor.warmup_complete (state o) = GasSensor.warmup_complete g.
Proof.
  intros g w. destruct g. open_world w. destruct mp; eexists; repeat split.
Qed.

(* ================================================================= *)
(** * The light sensor's status *)

(** X3.  [LDRSensor.get_status] decides ['is_dark'] on its first
    reading.  On the board ['digital'] is a second reading of the pin,
    so the two fields can disagree; in simulation ['digital'] is the
    stored draw ['is_dark'] was decided on, one reading is taken, and
    ['is_dark'] is true iff ['digital'] is 0. *)
Theorem ldr_status_fields :
  forall (l : LDRSensor.t) (w : World),
    let o := LDRSensor.get_status l w in
    let mp := MICROPYTHON (env w) in
    exists st,
      result o = Ok st /\
      LDRSensor.st_is_dark st = (sample_at w LDR 0 =? 0) /\
      LDRSensor.digital st = (if mp then sample_at w LDR 1 else sample_at w LDR 0) /\
      reads (world o) LDR = (if mp then S (S (reads w LDR)) else S (reads w LDR)) /\
      (if mp then True else LDRSensor.st_is_dark st = (LDRSensor.digital st =? 0)).
Proof.
  intros l w. destruct l. open_world w. destruct mp; eexists; repeat split.
Qed.

(* ================================================================= *)
(** * Relay commands, composed *)

Lemma relay_control_state a on r w :
  exists r', relay_control a on r w =
             mkOutcome (Ok tt) r' w (output (relay_control a on r w)).
Proof.
  destruct a; simpl;
    [rewrite control_light_eq | rewrite control_fan_eq
    | rewrite control_motor_eq | rewrite control_garden_light_eq];
    eexists; reflexivity.
Qed.

(** X4.  Relay commands compose as writes to four separate cells: a
    second command to the same appliance overrides the first (so a
    repeated command changes nothing more), commands to different
    appliances leave the same relays in either order, and
    [turn_off_all] leaves the relays as four single "off" commands do. *)
Theorem relay_commands_compose :
  forall (r : RelayController.t) (w : World),
    (forall (a : Appliance) (x y : bool),
       state ((relay_control a x ;; relay_control a y) r w) =
       state (relay_control a y r w)) /\
    (forall (a b : Appliance) (x y : bool),
       Appliance_eqb a b = false ->
       state ((relay_control a x ;; relay_control b y) r w) =
       state ((relay_control b y ;; relay_control a x) r w)) /\
    state (RelayController.turn_off_all r w) =
    state ((relay_control LIGHT false ;; relay_control FAN false ;;
            relay_control MOTOR false ;; relay_control GARDEN false) r w).
Proof.
  intros r w. destruct r. open_world w. repeat split.
  - intros a x y. destruct mp, a, x, y; reflexivity.
  - intros a b x y H. destruct a, b; try discriminate H; destruct mp, x, y; reflexivity.
  - destruct mp; reflexivity.
Qed.

(** Light on, then motor on, or the other way round: the same relays. *)
Lemma relay_commands_compose_witness :
  Appliance_eqb LIGHT MOTOR = false /\
  state ((relay_control LIGHT true ;; relay_control MOTOR true)
           RelayController.blank (boot tank_full)) =
  state ((relay_control MOTOR true ;; relay_control LIGHT true)
           RelayController.blank (boot tank_full)).
Proof.
  split; [reflexivity |].
  destruct (relay_commands_compose RelayController.blank (boot tank_full)) as (_ & H & _).
  apply H. reflexivity.
Defined.

(* ================================================================= *)
(** * Beeps *)




(* ================================================================= *)
(** * Connecting to WiFi *)

Lemma polled_next k w : polled k (next_poll w) = polled (S k) w.
Proof. unfold polled, next_poll; simpl. rewrite Nat.add_succ_r. reflexivity. Qed.

(** The waiting loop sleeps once for every "not connected" answer, up
    to [n] times, and stops at the first "connected". *)
Lemma wait_for_wifi_spec n : forall (s : HomeAutomationSystem.t) (w : World),
  exists k out,
    HomeAutomationSystem.wait_for_wifi n s w =
      mkOutcome (Ok tt) s (polled (S k) w) out /\
    (k <= n)%nat /\
    count is_sleep out = k /\
    count is_wlan_connect out = O /\
    (forall j, (j < k)%nat -> wlan_isconnected (env w) (j + wlan_polls w) = false) /\
    ((k < n)%nat -> wlan_isconnected (env w) (k + wlan_polls w) = true).
Proof.
  induction n as [| n IH]; intros s w.
  - exists O, []. repeat split; lia.
  - destruct (wlan_isconnected (env w) (wlan_polls w)) eqn:U.
    + exists O, []. split; [| repeat split; try lia].
      * simpl. unfold bind, wlan_poll. rewrite U. reflexivity.
      * intros _. exact U.
    + destruct (IH s (next_poll w)) as (k & out & E & Hk & C1 & C2 & Hf & Ht).
      exists (S k), ([Print (Text "."); Sleep (1 # 1)] ++ out). repeat split.
      * simpl. unfold bind at 1, wlan_poll. rewrite U.
        cbn [negb]. rewrite (bind_ok _ _ _ _ tt) by reflexivity.
        cbn [state world output result print emit].
        rewrite (bind_ok _ _ _ _ tt) by reflexivity.
        cbn [state world output result sleep emit].
        rewrite E, polled_next. reflexivity.
      * lia.
      * rewrite count_app, C1. reflexivity.
      * rewrite count_app, C2. reflexivity.
      * intros [| j] Hj; [exact U |].
        specialize (Hf j ltac:(lia)). simpl in Hf.
        rewrite Nat.add_succ_r in Hf. exact Hf.
      * intros Hlt. specialize (Ht ltac:(lia)). simpl in Ht.
        rewrite Nat.add_succ_r in Ht. exact Ht.
Qed.

Lemma connect_wifi_on_board s w :
  MICROPYTHON (env w) = true ->
  let o := HomeAutomationSystem.connect_wifi s w in
  result o = Ok tt /\
  (wlan_polls w < wlan_polls (world o) <= wlan_polls w + 33)%nat /\
  HomeAutomationSystem.connected (state o) =
    wlan_isconnected (env w) (pred (wlan_polls (world o))) /\
  (count is_sleep (output o) <= 30)%nat /\
  count is_wlan_connect (output o) =
    (if wlan_isconnected (env w) (wlan_polls w) then 0 else 1)%nat /\
  ((forall k, wlan_isconnected (env w) k = false) ->
   count is_sleep (output o) = 30%nat /\
   HomeAutomationSystem.connected (state o) = false).
Proof.
  intros Hmp o. unfold o, HomeAutomationSystem.connect_wifi.
  rewrite (bind_ok _ _ s w true) by (unfold micropython; simpl; rewrite Hmp; reflexivity).
  cbn [state world output result micropython negb].
  rewrite (bind_ok _ _ s w tt) by reflexivity.
  cbn [state world output result emit].
  rewrite (bind_ok _ _ s w (wlan_isconnected (env w) (wlan_polls w))) by reflexivity.
  cbn [state world output result wlan_poll].
  destruct (wlan_isconnected (env w) (wlan_polls w)) eqn:U; cbn [negb].
  - cbn. split; [| split; [| split; [| split; [| split]]]];
      try reflexivity; try lia.
    + symmetry. exact U.
    + intros H. rewrite H in U. discriminate.
  - rewrite (bind_ok _ _ _ _ tt) by reflexivity.
    cbn [state world output result print emit].
    rewrite (bind_ok _ _ _ _ tt) by reflexivity.
    cbn [state world output result print emit].
    destruct (wait_for_wifi_spec 30 s (next_poll w))
      as (k & out & E & Hk & C1 & C2 & Hf & Ht).
    rewrite (bind_ok _ _ _ _ tt) by (rewrite E; reflexivity).
    rewrite E. cbn [state world output result].
    rewrite (bind_ok _ _ _ _
               (wlan_isconnected (env w) (S k + wlan_polls (next_poll w))))
      by reflexivity.
    cbn [state world output result wlan_poll].
    rewrite !count_app, C1, C2.
    destruct (wlan_isconnected (env w) (S k + wlan_polls (next_poll w))) eqn:U'.
    + cbn. split; [| split; [| split; [| split; [| split]]]];
        try reflexivity; try lia.
      * symmetry. exact U'.
      * intros H. rewrite H in U'. discriminate.
    + cbn. split; [| split; [| split; [| split; [| split]]]];
        try reflexivity; try lia.
      * symmetry. exact U'.
      * intros H. split; [| reflexivity].
        destruct (Nat.eq_dec k 30) as [-> | Hne]; [reflexivity |].
        specialize (Ht ltac:(lia)). simpl in Ht. rewrite H in Ht. discriminate.
Qed.

(** X6.  [connect_wifi] does nothing at all in simulation.  On the
    board it leaves [connected] equal to the last answer of
    [wlan.isconnected()] it asked for, calls [wlan.connect] only when
    the first answer is "not connected", and gives up after at most 30
    one-second waits: with an access point that never answers it
    sleeps exactly 30 times and ends offline. *)
Theorem connect_wifi_bounded_wait :
  forall (s : HomeAutomationSystem.t) (w : World),
    let o := HomeAutomationSystem.connect_wifi s w in
    (MICROPYTHON (env w) = false -> o = mkOutcome (Ok tt) s w []) /\
    (MICROPYTHON (env w) = true ->
       result o = Ok tt /\
       (wlan_polls w < wlan_polls (world o) <= wlan_polls w + 33)%nat /\
       HomeAutomationSystem.connected (state o) =
         wlan_isconnected (env w) (pred (wlan_polls (world o))) /\
       (count is_sleep (output o) <= 30)%nat /\
       count is_wlan_connect (output o) =
         (if wlan_isconnected (env w) (wlan_polls w) then 0 else 1)%nat /\
       ((forall k, wlan_isconnected (env w) k = false) ->
        count is_sleep (output o) = 30%nat /\
        HomeAutomationSystem.connected (state o) = false)).
Proof.
  intros s w o. split.
  - intros Hmp. unfold o, HomeAutomationSystem.connect_wifi, bind, micropython.
    rewrite Hmp. reflexivity.
  - intros Hmp. apply connect_wifi_on_board. exact Hmp.
Qed.

(** On the board whose access point never answers: 30 waits, offline. *)
Lemma connect_wifi_bounded_wait_witness :
  MICROPYTHON (env (boot tank_full)) = true /\
  (forall k, wlan_isconnected (env (boot tank_full)) k = false) /\
  count is_sleep
    (output (HomeAutomationSystem.connect_wifi HomeAutomationSystem.blank
               (boot tank_full))) = 30%nat.
Proof.
  split; [reflexivity | split; [intros k; reflexivity |]].
  destruct (connect_wifi_bounded_wait HomeAutomationSystem.blank (boot tank_full))
    as (_ & H).
  destruct (H eq_refl) as (_ & _ & _ & _ & _ & H30).
  apply H30. intros k. reflexivity.
Defined.

(* ================================================================= *)
(** * Requests to Blynk *)

(** X7.  Connected on the board, [send_to_blynk(pin, value)] makes
    exactly one request, for [...update?token=TOKEN&v{pin}={value}],
    and prints one error line carrying the exception iff the request
    or the closing of its response raises; [log_event(code,
    description)] does the same for [...logEvent?token=TOKEN&code={code}]
    and sends nothing of its description.  Neither changes the system. *)
Theorem blynk_calls_one_request_each :
  forall (s : HomeAutomationSystem.t) (w : World),
    HomeAutomationSystem.connected s = true ->
    MICROPYTHON (env w) = true ->
    (forall virtual_pin value : Z,
       HomeAutomationSystem.send_to_blynk virtual_pin value s w =
       mkOutcome (Ok (completes (http (env w) (requests w)))) s (next_request w)
         (HttpGet (update_url virtual_pin value)
            :: update_error (http (env w) (requests w)))) /\
    (forall event_code description : string,
       HomeAutomationSystem.log_event event_code description s w =
       mkOutcome (Ok (completes (http (env w) (requests w)))) s (next_request w)
         (HttpGet (event_url event_code)
            :: event_error (http (env w) (requests w)))).
Proof.
  intros s w Hc Hmp. destruct s as [c g l x r b ov]. open_world w.
  simpl in Hc, Hmp. subst c mp. split; intros.
  - unfold HomeAutomationSystem.send_to_blynk, update_url, try_except, bind, gets,
      micropython, requests_get, response_close, raise, ret, print, emit; simpl.
    destruct (ht rq); reflexivity.
  - unfold HomeAutomationSystem.log_event, event_url, try_except, bind, gets,
      micropython, requests_get, response_close, raise, ret, print, emit; simpl.
    destruct (ht rq); reflexivity.
Qed.

(** After start-up on the board with WiFi up, a gas level goes out. *)
Lemma blynk_calls_one_request_each_witness :
  HomeAutomationSystem.connected (state (started leak_online)) = true /\
  MICROPYTHON (env (world (started leak_online))) = true /\
  output (HomeAutomationSystem.send_to_blynk 10 450 (state (started leak_online))
            (world (started leak_online))) =
  [HttpGet (update_url 10 450)].
Proof.
  split; [reflexivity | split; [reflexivity |]].
  destruct (blynk_calls_one_request_each (state (started leak_online))
              (world (started leak_online)) eq_refl eq_refl) as (H & _).
  rewrite H. reflexivity.
Defined.


Lemma push_readings_count s w :
  count is_request (output (HomeAutomationSystem.push_readings s w)) =
  if HomeAutomationSystem.connected s && MICROPYTHON (env w) then 3%nat else 0%nat.
Proof.
  destruct s as [c g l x r b ov]. destruct g, l, x. open_world w.
  destruct c, mp; split_ifs; reflexivity.
Qed.

Lemma gas_handler_requests s w :
  count is_request (output (HomeAutomationSystem.handle_gas_detection s w)) =
  if (sample_at w MQ2_ANALOG 1 >?
      GasSensor.threshold (HomeAutomationSystem.gas_sensor s))
     && HomeAutomationSystem.connected s && MICROPYTHON (env w)
  then 2%nat else 0%nat.
Proof.
  destruct s as [c g l x r b ov]. destruct g, b. open_world w.
  unfold sample_at. destruct mp, c, is_alarming; split_ifs; reflexivity.
Qed.

Lemma gas_handler_keeps_connected :
  keeps HomeAutomationSystem.connected HomeAutomationSystem.handle_gas_detection.
Proof. frame. Qed.
Lemma garden_handler_keeps_connected :
  keeps HomeAutomationSystem.connected HomeAutomationSystem.handle_garden_light.
Proof. frame. Qed.
Lemma water_handler_keeps_connected :
  keeps HomeAutomationSystem.connected HomeAutomationSystem.handle_water_tank.
Proof. frame. Qed.
Lemma report_keeps_connected lc :
  keeps HomeAutomationSystem.connected (HomeAutomationSystem.report lc).
Proof. frame. Qed.
Lemma loop_body_keeps_connected lc :
  keeps HomeAutomationSystem.connected (HomeAutomationSystem.loop_body lc).
Proof. unfold HomeAutomationSystem.loop_body. frame. Qed.
Lemma loop_body_keeps_override lc :
  keeps HomeAutomationSystem.manual_override (HomeAutomationSystem.loop_body lc).
Proof. unfold HomeAutomationSystem.loop_body. frame. Qed.

Lemma report_requests lc s w :
  count is_request (output (HomeAutomationSystem.report lc s w)) =
  if HomeAutomationSystem.connected s && (lc mod 5 =? 0) && MICROPYTHON (env w)
  then 3%nat else 0%nat.
Proof.
  unfold HomeAutomationSystem.report.
  assert (T : total (when (lc mod 10 =? 0) HomeAutomationSystem.print_system_status))
    by frame.
  assert (Q : silent is_request
                (when (lc mod 10 =? 0) HomeAutomationSystem.print_system_status))
    by frame.
  assert (K : keeps HomeAutomationSystem.connected
                (when (lc mod 10 =? 0) HomeAutomationSystem.print_system_status))
    by frame.
  assert (E : wkeeps env
                (when (lc mod 10 =? 0) HomeAutomationSystem.print_system_status))
    by frame.
  destruct (T s w) as [a Ha].
  rewrite (bind_count _ _ _ _ _ _ Ha), (silent_count _ _ _ _ Q).
  pose proof (K s w) as Kc. pose proof (E s w) as Ew.
  set (o := when (lc mod 10 =? 0) HomeAutomationSystem.print_system_status s w) in *.
  rewrite (bind_ok _ _ (state o) (world o) (state o)) by reflexivity.
  cbn [state world output result get app]. rewrite Kc.
  destruct (HomeAutomationSystem.connected s && (lc mod 5 =? 0)) eqn:C; simpl.
  - rewrite push_readings_count, Kc, Ew.
    apply andb_prop in C. destruct C as [-> _]. reflexivity.
  - reflexivity.
Qed.

(** A pass, counted: what the gas handler emits, what the report
    emits, and the sleep. *)
Lemma loop_body_count p lc s w :
  silent p HomeAutomationSystem.handle_garden_light ->
  silent p HomeAutomationSystem.handle_water_tank ->
  exists s3 w3,
    HomeAutomationSystem.connected s3 = HomeAutomationSystem.connected s /\
    env w3 = env w /\
    count p (output (HomeAutomationSystem.loop_body lc s w)) =
    (count p (output (HomeAutomationSystem.handle_gas_detection s w)) +
     count p (output (HomeAutomationSystem.report (lc + 1) s3 w3)) +
     count p [Sleep (1 # 1)])%nat.
Proof.
  intros Q2 Q3. unfold HomeAutomationSystem.loop_body.
  destruct (gas_handler_total s w) as [a1 H1].
  rewrite (bind_count _ _ _ _ _ _ H1).
  set (o1 := HomeAutomationSystem.handle_gas_detection s w) in *.
  destruct (garden_handler_total (state o1) (world o1)) as [a2 H2].
  rewrite (bind_count _ _ _ _ _ _ H2), (silent_count _ _ _ _ Q2).
  set (o2 := HomeAutomationSystem.handle_garden_light (state o1) (world o1)) in *.
  destruct (water_handler_total (state o2) (world o2)) as [a3 H3].
  rewrite (bind_count _ _ _ _ _ _ H3), (silent_count _ _ _ _ Q3).
  set (o3 := HomeAutomationSystem.handle_water_tank (state o2) (world o2)) in *.
  destruct (report_total (lc + 1) (state o3) (world o3)) as [a4 H4].
  rewrite (bind_count _ _ _ _ _ _ H4).
  exists (state o3), (world o3). split; [| split].
  - unfold o3. rewrite water_handler_keeps_connected.
    unfold o2. rewrite garden_handler_keeps_connected.
    apply gas_handler_keeps_connected.
  - unfold o3. rewrite water_handler_env.
    unfold o2. rewrite garden_handler_env.
    apply gas_handler_env.
  - simpl. lia.
Qed.

Lemma loop_body_result lc s w :
  result (HomeAutomationSystem.loop_body lc s w) = Ok (lc + 1).
Proof.
  unfold HomeAutomationSystem.loop_body.
  destruct (gas_handler_total s w) as [a1 H1].
  rewrite (bind_result_ok _ _ _ _ _ H1).
  set (o1 := HomeAutomationSystem.handle_gas_detection s w) in *.
  destruct (garden_handler_total (state o1) (world o1)) as [a2 H2].
  rewrite (bind_result_ok _ _ _ _ _ H2).
  set (o2 := HomeAutomationSystem.handle_garden_light (state o1) (world o1)) in *.
  destruct (water_handler_total (state o2) (world o2)) as [a3 H3].
  rewrite (bind_result_ok _ _ _ _ _ H3).
  set (o3 := HomeAutomationSystem.handle_water_tank (state o2) (world o2)) in *.
  destruct (report_total (lc + 1) (state o3) (world o3)) as [a4 H4].
  rewrite (bind_result_ok _ _ _ _ _ H4).
  reflexivity.
Qed.

Lemma loop_body_requests lc s w :
  count is_request (output (HomeAutomationSystem.loop_body lc s w)) =
  if HomeAutomationSystem.connected s && MICROPYTHON (env w)
  then Nat.add
         (if sample_at w MQ2_ANALOG 1 >?
             GasSensor.threshold (HomeAutomationSystem.gas_sensor s)
          then 2%nat else 0%nat)
         (if (lc + 1) mod 5 =? 0 then 3%nat else 0%nat)
  else 0%nat.
Proof.
  destruct (loop_body_count is_request lc s w) as (s3 & w3 & Hc & He & E);
    [frame | frame |].
  rewrite E, gas_handler_requests, report_requests, Hc, He. simpl.
  destruct (HomeAutomationSystem.connected s), (MICROPYTHON (env w)),
    (sample_at w MQ2_ANALOG 1 >? _), ((lc + 1) mod 5 =? 0); reflexivity.
Qed.

(** X8.  The requests of one pass: two when gas is detected (level and
    alert), three more on every fifth pass (gas level, tank, light),
    and none at all when the system is not connected or runs in
    simulation. *)
Theorem requests_per_pass :
  forall (loop_count : Z) (s : HomeAutomationSystem.t) (w : World),
    count is_request (output (HomeAutomationSystem.loop_body loop_count s w)) =
    if HomeAutomationSystem.connected s && MICROPYTHON (env w)
    then Nat.add
           (if sample_at w MQ2_ANALOG 1 >?
               GasSensor.threshold (HomeAutomationSystem.gas_sensor s)
            then 2%nat else 0%nat)
           (if (loop_count + 1) mod 5 =? 0 then 3%nat else 0%nat)
    else 0%nat.
Proof. intros lc s w. apply loop_body_requests. Qed.



(* ================================================================= *)
(** * Any number of passes *)

Lemma loop_step n lc s w :
  HomeAutomationSystem.loop (S n) lc s w =
  let o := HomeAutomationSystem.loop_body lc s w in
  let o' := HomeAutomationSystem.loop n (lc + 1) (state o) (world o) in
  mkOutcome (result o') (state o') (world o') (output o ++ output o').
Proof.
  simpl. rewrite (bind_ok _ _ _ _ _ (loop_body_result lc s w)). reflexivity.
Qed.


Lemma loop_keeps {C} (f : HomeAutomationSystem.t -> C) :
  (forall lc, keeps f (HomeAutomationSystem.loop_body lc)) ->
  forall n lc, keeps f (HomeAutomationSystem.loop n lc).
Proof.
  intros H n. induction n as [| n IH]; intros lc s w.
  - reflexivity.
  - rewrite loop_step; cbn [state]. rewrite IH. apply H.
Qed.

Lemma loop_env n : forall lc, wkeeps env (HomeAutomationSystem.loop n lc).
Proof.
  induction n as [| n IH]; intros lc s w.
  - reflexivity.
  - rewrite loop_step; cbn [world]. rewrite IH. apply loop_body_env.
Qed.

(** X10.  The loop never reconnects: any number of passes leaves
    [connected] as it was, and a system that is offline, or runs in
    simulation, sends no request in any of them. *)
Theorem offline_stays_offline :
  forall (passes : nat) (loop_count : Z) (s : HomeAutomationSystem.t) (w : World),
    let o := HomeAutomationSystem.loop passes loop_count s w in
    HomeAutomationSystem.connected (state o) = HomeAutomationSystem.connected s /\
    (HomeAutomationSystem.connected s && MICROPYTHON (env w) = false ->
     count is_request (output o) = O).
Proof.
  intros n lc s w o. split.
  - apply (loop_keeps _ loop_body_keeps_connected).
  - unfold o. clear o. revert lc s w.
    induction n as [| n IH]; intros lc s w H; [reflexivity |].
    rewrite loop_step; cbn [output]. rewrite count_app, loop_body_requests, H.
    apply IH. rewrite loop_body_keeps_connected, loop_body_env. exact H.
Qed.

(** Start-up in simulation leaves the system offline; 25 passes later,
    not one request. *)
Lemma offline_stays_offline_witness :
  HomeAutomationSystem.connected (state (started (wavering false)))
    && MICROPYTHON (env (world (started (wavering false)))) = false /\
  count is_request
    (output (HomeAutomationSystem.loop 25 0 (state (started (wavering false)))
               (world (started (wavering false))))) = O.
Proof.
  split; [reflexivity |].
  apply (offline_stays_offline 25 0 (state (started (wavering false)))
           (world (started (wavering false)))).
  reflexivity.
Defined.

Lemma driven_garden_light_and_fan mp b r :
  light_and_fan (driven mp RelayController.set_garden
                   RelayController.set_garden_state b r) = light_and_fan r.
Proof. destruct mp, b; reflexivity. Qed.

Lemma driven_motor_light_and_fan mp b r :
  light_and_fan (driven mp RelayController.set_motor
                   RelayController.set_motor_state b r) = light_and_fan r.
Proof. destruct mp, b; reflexivity. Qed.

Lemma loop_body_light_and_fan lc :
  keeps (fun s => light_and_fan (HomeAutomationSystem.relay s))
        (HomeAutomationSystem.loop_body lc).
Proof.
  intros s w. rewrite loop_body_relay; simpl.
  destruct (HomeAutomationSystem.ov_motor _), (HomeAutomationSystem.ov_garden _);
    rewrite ?driven_motor_light_and_fan, ?driven_garden_light_and_fan; reflexivity.
Qed.

Lemma loop_silent p :
  (forall lc, silent p (HomeAutomationSystem.loop_body lc)) ->
  forall n lc, silent p (HomeAutomationSystem.loop n lc).
Proof.
  intros H n. induction n as [| n IH]; intros lc s w.
  - reflexivity.
  - rewrite loop_step; cbn [output]. rewrite existsb_app, H, IH. reflexivity.
Qed.

(** X11.  The room light and the fan are never driven by the loop: any
    number of passes, whatever the sensors show and whatever the
    overrides are, leaves their pins and levels as they were, reads
    them back the same, and prints no light or fan line; and the loop
    never changes an override flag. *)
Theorem loop_never_drives_light_or_fan :
  forall (passes : nat) (loop_count : Z) (s : HomeAutomationSystem.t) (w : World),
    let o := HomeAutomationSystem.loop passes loop_count s w in
    let before := reported (MICROPYTHON (env w)) (HomeAutomationSystem.relay s) in
    light_and_fan (HomeAutomationSystem.relay (state o)) =
      light_and_fan (HomeAutomationSystem.relay s) /\
    (exists st,
       result (RelayController.get_status (HomeAutomationSystem.relay (state o))
                 (world o)) = Ok st /\
       RelayController.st_light st = RelayController.st_light before /\
       RelayController.st_fan st = RelayController.st_fan before) /\
    existsb is_light_or_fan_line (output o) = false /\
    HomeAutomationSystem.manual_override (state o) =
      HomeAutomationSystem.manual_override s.
Proof.
  intros n lc s w o before.
  assert (L : light_and_fan (HomeAutomationSystem.relay (state o)) =
              light_and_fan (HomeAutomationSystem.relay s))
    by apply (loop_keeps _ loop_body_light_and_fan).
  split; [exact L | split; [| split]].
  - rewrite get_status_eq. eexists. split; [reflexivity |].
    unfold o at 1 3. rewrite loop_env. fold o. unfold before.
    unfold light_and_fan in L. injection L as L1 L2 L3 L4.
    unfold reported. destruct (MICROPYTHON (env w)); simpl;
      rewrite ?L1, ?L2, ?L3, ?L4; split; reflexivity.
  - apply loop_silent. intros lc'. unfold HomeAutomationSystem.loop_body. frame.
  - apply (loop_keeps _ loop_body_keeps_override).
Qed.

(* ================================================================= *)
(** * The cadence of the loop *)







(* ================================================================= *)
(** * Start-up, and what every reachable state keeps *)

(** As [frame], also through the gas sensor's own methods for a view of
    the gas sensor. *)
Ltac frame_gas :=
  repeat first
    [ match goal with
      | |- keeps (fun s => ?h (HomeAutomationSystem.gas_sensor s))
                 (HomeAutomationSystem.on_gas_sensor _) =>
          unfold HomeAutomationSystem.on_gas_sensor;
          apply (keeps_zoom_sub (fun s => h (HomeAutomationSystem.gas_sensor s)) h);
          [reflexivity | reflexivity |]
      end
    | frame_step ].

Lemma wait_for_wifi_no_request n :
  silent is_request (HomeAutomationSystem.wait_for_wifi n).
Proof. induction n; simpl; frame. Qed.

#[export] Hint Resolve wait_for_wifi_no_request : frame.

Lemma warmup_sets_flag duration g w :
  GasSensor.warmup_complete (state (GasSensor.warmup duration g w)) = true.
Proof.
  unfold GasSensor.warmup, range.
  destruct (warmup_loop duration (Z.to_nat duration) 0 g w) as (out & E & C).
  rewrite (bind_ok _ _ g w tt) by reflexivity.
  cbn [state world output result print emit].
  rewrite (bind_ok _ _ g w tt) by (rewrite E; reflexivity).
  rewrite E; cbn [state world output result].
  destruct g. open_world w. destruct mp; reflexivity.
Qed.

Lemma init_buzzer_silent :
  ensures HomeAutomationSystem.__init__
    (fun s w =>
       BuzzerController.is_alarming (HomeAutomationSystem.buzzer s) = false /\
       drive (MICROPYTHON (env w)) (HomeAutomationSystem.buzzer s) = 0).
Proof.
  unfold HomeAutomationSystem.__init__.
  do 14 (apply ensures_after; [frame | intros ?]).
  apply (ensures_kept _ _ HomeAutomationSystem.buzzer env
           (fun b e => BuzzerController.is_alarming b = false /\
                       drive (MICROPYTHON e) b = 0)).
  - intros s w. destruct s as [c g l x r b ov]. destruct b. open_world w.
    destruct mp; split; reflexivity.
  - frame.
  - frame.
Qed.

Lemma init_no_override :
  ensures HomeAutomationSystem.__init__
    (fun s w => HomeAutomationSystem.manual_override s = no_override).
Proof.
  unfold HomeAutomationSystem.__init__.
  do 8 (apply ensures_after; [frame | intros ?]).
  apply (ensures_kept _ _ HomeAutomationSystem.manual_override env
           (fun o _ => o = no_override)).
  - intros s w. reflexivity.
  - frame.
  - frame.
Qed.

Lemma init_threshold :
  ensures HomeAutomationSystem.__init__
    (fun s w =>
       GasSensor.threshold (HomeAutomationSystem.gas_sensor s) = config.GAS_THRESHOLD).
Proof.
  unfold HomeAutomationSystem.__init__.
  do 2 (apply ensures_after; [frame | intros ?]).
  apply (ensures_kept _ _
           (fun s => GasSensor.threshold (HomeAutomationSystem.gas_sensor s)) env
           (fun t _ => t = config.GAS_THRESHOLD)).
  - intros s w. destruct s as [c g l x r b ov]. open_world w. destruct mp; reflexivity.
  - frame_gas.
  - frame.
Qed.

Lemma init_warmed_up :
  ensures HomeAutomationSystem.__init__
    (fun s w =>
       GasSensor.warmup_complete (HomeAutomationSystem.gas_sensor s) = true).
Proof.
  unfold HomeAutomationSystem.__init__.
  do 10 (apply ensures_after; [frame | intros _]).
  apply ensures_after; [frame | intros mp].
  apply (ensures_kept _ _
           (fun s => GasSensor.warmup_complete (HomeAutomationSystem.gas_sensor s)) env
           (fun t _ => t = true)).
  - intros s w. unfold HomeAutomationSystem.on_gas_sensor, zoom.
    pose proof (warmup_sets_flag (if negb mp then 5 else 10)
                  (HomeAutomationSystem.gas_sensor s) w) as H.
    destruct (GasSensor.warmup _ _ w). exact H.
  - frame.
  - frame.
Qed.

Lemma init_total : total HomeAutomationSystem.__init__.
Proof. unfold HomeAutomationSystem.__init__. frame. Qed.

Lemma init_no_request : silent is_request HomeAutomationSystem.__init__.
Proof. unfold HomeAutomationSystem.__init__. frame. Qed.

Lemma init_offline_in_simulation s w :
  MICROPYTHON (env w) || negb (HomeAutomationSystem.connected
                                 (state (HomeAutomationSystem.__init__ s w))) = true.
Proof.
  destruct s as [c g l x r b ov]. destruct g, l, x, r, b. open_world w.
  destruct mp; [reflexivity |]. run. reflexivity.
Qed.

(** X13.  Start-up, from any object and any world, returns and leaves
    the buzzer silent with the latch clear, every override flag False,
    the gas sensor warmed up with the configured threshold of 400, and
    has sent no request; a system that comes out of it connected runs
    on the board, so in simulation it always starts offline. *)
Theorem startup_postcondition :
  forall (s : HomeAutomationSystem.t) (w : World),
    let o := HomeAutomationSystem.__init__ s w in
    result o = Ok tt /\
    BuzzerController.is_alarming (HomeAutomationSystem.buzzer (state o)) = false /\
    drive (MICROPYTHON (env (world o))) (HomeAutomationSystem.buzzer (state o)) = 0 /\
    HomeAutomationSystem.manual_override (state o) = no_override /\
    GasSensor.threshold (HomeAutomationSystem.gas_sensor (state o)) = 400 /\
    GasSensor.warmup_complete (HomeAutomationSystem.gas_sensor (state o)) = true /\
    count is_request (output o) = O /\
    MICROPYTHON (env w) || negb (HomeAutomationSystem.connected (state o)) = true.
Proof.
  intros s w o.
  destruct (init_total s w) as [[] R].
  destruct (init_buzzer_silent s w) as [B1 B2].
  repeat split.
  - exact R.
  - exact B1.
  - exact B2.
  - apply init_no_override.
  - apply init_threshold.
  - apply init_warmed_up.
  - apply silent_count, init_no_request.
  - apply init_offline_in_simulation.
Qed.

Lemma loop_body_keeps_threshold lc :
  keeps (fun s => GasSensor.threshold (HomeAutomationSystem.gas_sensor s))
        (HomeAutomationSystem.loop_body lc).
Proof. unfold HomeAutomationSystem.loop_body. frame_gas. Qed.

Lemma loop_body_keeps_warm lc :
  keeps (fun s => GasSensor.warmup_complete (HomeAutomationSystem.gas_sensor s))
        (HomeAutomationSystem.loop_body lc).
Proof. unfold HomeAutomationSystem.loop_body. frame_gas. Qed.

Lemma loop_body_keeps_latch lc s w :
  latch_matches_line (MICROPYTHON (env w)) (HomeAutomationSystem.buzzer s) ->
  latch_matches_line (MICROPYTHON (env w))
    (HomeAutomationSystem.buzzer (state (HomeAutomationSystem.loop_body lc s w))).
Proof.
  intros H. rewrite loop_body_buzzer, handle_gas_detection_buzzer.
  destruct (sample_at w MQ2_ANALOG 1 >? _).
  - destruct (alarm_on_eq (HomeAutomationSystem.buzzer s) w) as (b' & E & Ha & Hd).
    rewrite E. apply latch_matches_on; assumption.
  - destruct (BuzzerController.is_alarming (HomeAutomationSystem.buzzer s)).
    + destruct (alarm_off_eq (HomeAutomationSystem.buzzer s) w) as (b' & E & Ha & Hd).
      rewrite E. apply latch_matches_off; assumption.
    + exact H.
Qed.

Lemma command_keeps_buzzer c : keeps HomeAutomationSystem.buzzer (command c).
Proof. destruct c as [a f | [] on]; simpl; frame. Qed.

Lemma command_keeps_gas_sensor c : keeps HomeAutomationSystem.gas_sensor (command c).
Proof. destruct c as [a f | [] on]; simpl; frame. Qed.

Lemma command_env c : wkeeps env (command c).
Proof. destruct c as [a f | [] on]; simpl; frame. Qed.

(** X14.  In every reachable state of the system, manual commands
    included, the gas sensor is warmed up and still has the configured
    threshold of 400 (nothing ever recalibrates it), and the buzzer's
    latch agrees with its line: [is_alarming] iff the line is high. *)
Theorem reachable_state_invariants :
  forall (w : World) (s : HomeAutomationSystem.t),
    reachable w s ->
    GasSensor.threshold (HomeAutomationSystem.gas_sensor s) = 400 /\
    GasSensor.warmup_complete (HomeAutomationSystem.gas_sensor s) = true /\
    (BuzzerController.is_alarming (HomeAutomationSystem.buzzer s) = true <->
     drive (MICROPYTHON (env w)) (HomeAutomationSystem.buzzer s) = 1).
Proof.
  intros w s H. induction H as [w0 | lc w s H (IT & IW & IL) | c w s H (IT & IW & IL)].
  - split; [apply init_threshold | split; [apply init_warmed_up |]].
    destruct (init_buzzer_silent HomeAutomationSystem.blank w0) as [B1 B2].
    apply latch_matches_off; assumption.
  - split; [| split].
    + rewrite (loop_body_keeps_threshold lc s w). exact IT.
    + rewrite (loop_body_keeps_warm lc s w). exact IW.
    + rewrite loop_body_env. apply loop_body_keeps_latch. exact IL.
  - rewrite (command_keeps_buzzer c s w), (command_keeps_gas_sensor c s w),
      (command_env c s w).
    repeat split; try assumption; apply IL.
Qed.

(** After start-up in simulation and one pass through the loop. *)
Lemma reachable_state_invariants_witness :
  reachable
    (world (HomeAutomationSystem.loop_body 0 (state (started (wavering false)))
              (world (started (wavering false)))))
    (state (HomeAutomationSystem.loop_body 0 (state (started (wavering false)))
              (world (started (wavering false))))) /\
  GasSensor.threshold
    (HomeAutomationSystem.gas_sensor
       (state (HomeAutomationSystem.loop_body 0 (state (started (wavering false)))
                 (world (started (wavering false)))))) = 400.
Proof.
  assert (H : reachable
    (world (HomeAutomationSystem.loop_body 0 (state (started (wavering false)))
              (world (started (wavering false)))))
    (state (HomeAutomationSystem.loop_body 0 (state (started (wavering false)))
              (world (started (wavering false))))))
    by (unfold started; apply reach_pass, reach_init).
  split; [exact H |].
  apply (reachable_state_invariants _ _ H).
Defined.

(* ================================================================= *)
(** * The status panel *)

(** X15.  [print_system_status] prints one panel and drives nothing: it
    leaves relays, buzzer, overrides and the connection flag as they
    were.  The panel shows the relay readback and the connection flag
    of that moment, and sensor values it reads afresh: the gas reading
    is a new analog reading, its status text is decided on the reading
    after that one, and the motor text on the second reading of each
    float switch. *)
Theorem status_panel_is_read_only :
  forall (s : HomeAutomationSystem.t) (w : World),
    let o := HomeAutomationSystem.print_system_status s w in
    let mp := MICROPYTHON (env w) in
    let now := reported mp (HomeAutomationSystem.relay s) in
    result o = Ok tt /\
    output o =
      [Print (StatusPanel
         (sample_at w MQ2_ANALOG 0)
         (GasSensor.threshold (HomeAutomationSystem.gas_sensor s))
         (if sample_at w MQ2_ANALOG 1 >?
             GasSensor.threshold (HomeAutomationSystem.gas_sensor s)
          then "GAS DETECTED" else "Normal")
         (if sample_at w LDR 0 =? 0 then "Dark" else "Light")
         (if sample_at w FLOAT_OVERHEAD 0 =? 1 then "Full" else "Not Full")
         (if sample_at w FLOAT_UNDERGROUND 0 =? 0 then "Empty" else "Has Water")
         (if negb (sample_at w FLOAT_OVERHEAD 1 =? 1) &&
             negb (sample_at w FLOAT_UNDERGROUND 1 =? 0)
          then "Can Run" else "Cannot Run")
         (RelayController.st_light now) (RelayController.st_fan now)
         (RelayController.st_motor now) (RelayController.st_garden now)
         (HomeAutomationSystem.connected s))] /\
    HomeAutomationSystem.relay (state o) = HomeAutomationSystem.relay s /\
    HomeAutomationSystem.buzzer (state o) = HomeAutomationSystem.buzzer s /\
    HomeAutomationSystem.manual_override (state o) =
      HomeAutomationSystem.manual_override s /\
    HomeAutomationSystem.connected (state o) = HomeAutomationSystem.connected s.
Proof.
  intros s w. destruct s as [c g l x r b ov]. destruct g, l, x, r. open_world w.
  unfold sample_at. destruct mp; run; repeat split.
Qed.
